(** * server.js: the SMS to Telegram forwarding service

    A shallow embedding of [src/server.js] and the properties of its three
    protected routes, its device registry, its access gate and its request
    limiter.

    The service is an Express application.  A request first meets the
    middlewares mounted with [app.use] (the limiter on [/api]), then the
    route that matches it; a protected route is the chain
    [checkApiKey, handler].  The registry is the module-level array
    [devices]; the only outbound effect is [axios.post] to the messaging
    platform.

    Layout: the values a parsed request body can hold, with the three
    language operations the code applies to them (truthiness, [===],
    conversion to text); the effects of a handler as a small monad over the
    server's store; the code of [server.js], function by function; then the
    properties. *)

From Stdlib Require Import ZArith Lia SpecFloat.
From stdpp Require Import base list strings pretty.

Set Warnings "-register-all".

(** ** Values of the language *)

Module JS.

(** What [bodyParser.json()] leaves in [req.body] and its fields: numbers
    are IEEE doubles ([spec_float]), strings are kept as the bytes of their
    UTF-8 text, an object is the list of its own properties.  A field that
    the body does not have reads as [VUndefined]. *)
Inductive value : Type :=
| VUndefined
| VNull
| VBool (b : bool)
| VNum (n : spec_float)
| VStr (s : string)
| VArr (elements : list value)
| VObj (properties : list (string * value)).

(** [!v] is [negb (truthy v)]: the falsy values are [undefined], [null],
    [false], [0], [-0], [NaN] and the empty string. *)
Definition truthy (v : value) : bool :=
  match v with
  | VUndefined | VNull => false
  | VBool b => b
  | VNum (S754_zero _) | VNum S754_nan => false
  | VNum _ => true
  | VStr s => negb (String.eqb s "")
  | VArr _ | VObj _ => true
  end.

(** [a === b].  Arrays and objects compare by identity.  The key check
    compares strings; every other comparison in [server.js] has a value
    stored from an earlier request on one side and a field of the current
    request's freshly parsed body on the other, so the two are never the
    same object: on arrays and objects [===] is [false]. *)
Definition strict_eq (a b : value) : bool :=
  match a, b with
  | VUndefined, VUndefined => true
  | VNull, VNull => true
  | VBool x, VBool y => Bool.eqb x y
  | VNum x, VNum y => SFeqb x y
  | VStr x, VStr y => String.eqb x y
  | _, _ => false
  end.

Definition has_own (k : string) (properties : list (string * value)) : bool :=
  existsb (fun p => String.eqb (fst p) k) properties.

Fixpoint own (k : string) (properties : list (string * value)) : value :=
  match properties with
  | [] => VUndefined
  | (k', v) :: rest => if String.eqb k' k then v else own k rest
  end.

(** [o.k] (and the destructuring [const { k } = o]) for the field names the
    handlers read: none of them is a property of [Object.prototype] or of
    an array. *)
Definition get (o : value) (k : string) : value :=
  match o with
  | VObj properties => own k properties
  | _ => VUndefined
  end.

(** The message of the [TypeError] that the conversion of an object to text
    throws (V8's wording). *)
Definition TypeError_message : string :=
  "Cannot convert object to primitive value".

(** The time value of [new Date(n)]: [None] is the invalid date, otherwise
    the integral number of milliseconds since the epoch, at most
    8.64e15 in absolute value (TimeClip). *)
Definition maxTime : Z := 8640000000000000.

Definition new_Date (n : spec_float) : option Z :=
  match n with
  | S754_zero _ => Some 0%Z
  | S754_finite s m e =>
      let within :=
        if (0 <=? e)%Z then (Z.pos m * 2 ^ e <=? maxTime)%Z
        else (Z.pos m <=? maxTime * 2 ^ (- e))%Z in
      if within then
        let t := Z.shiftl (Z.pos m) e in
        Some (if s then (- t)%Z else t)
      else None
  | S754_infinity _ | S754_nan => None
  end.

End JS.
Export JS.

(** ** The store, the outbound calls and the effects of a handler *)

Module Registry.

(** An element of the array [devices]. *)
Record device : Type := { deviceId : value; botToken : value; chatId : value }.

End Registry.
Export Registry.

(** The process's mutable state: the array [devices] (line 52) and the hits
    the limiter has counted, each with the address it came from and its time
    in milliseconds. *)
Record store : Type := { devices : list device; hits : list (string * Z) }.

Definition init : store := {| devices := []; hits := [] |}.

(** One [axios.post(telegramApi, { chat_id, text, parse_mode })]. *)
Record call : Type :=
  { url : string; chat_id : value; text : value; parse_mode : string }.

Record response : Type := { status : Z; json : value }.

(** How a block ends: normally, or by a thrown error, of which the code only
    ever reads [error.message]. *)
Inductive completion (A : Type) : Type :=
| Normal (a : A)
| Throw (message : string).
Arguments Normal {A} a.
Arguments Throw {A} message.

(** A computation reads and writes the store and appends to the log of
    outbound calls.  What was written and sent before a throw stays. *)
Definition M (A : Type) : Type := store -> completion A * store * list call.

#[global] Instance M_ret : MRet M := fun A a st => (Normal a, st, []).

#[global] Instance M_bind : MBind M := fun A B f m st =>
  match m st with
  | (Normal a, st1, sent1) =>
      match f a st1 with (r, st2, sent2) => (r, st2, sent1 ++ sent2) end
  | (Throw e, st1, sent1) => (Throw e, st1, sent1)
  end.

Definition throw {A : Type} (message : string) : M A :=
  fun st => (Throw message, st, []).

(** [try { block } catch (error) { handler(error.message) }] *)
Definition try_catch {A : Type} (block : M A) (handler : string -> M A) : M A :=
  fun st =>
    match block st with
    | (Throw e, st1, sent1) =>
        match handler e st1 with (r, st2, sent2) => (r, st2, sent1 ++ sent2) end
    | done => done
    end.

Definition read_devices : M (list device) :=
  fun st => (Normal (devices st), st, []).

Definition write_devices (l : list device) : M unit :=
  fun st => (Normal tt, {| devices := l; hits := hits st |}, []).

(** A conversion to text inside a template literal: it throws a
    [TypeError] when the value has no text. *)
Definition template (converted : option string) : M string :=
  match converted with
  | Some s => mret s
  | None => throw TypeError_message
  end.

(** ** Requests *)

(** The three routes registered with [checkApiKey]. *)
Inductive api_route : Type :=
| sendToTelegram_route
| registerDevice_route
| processSms_route.

(** Where the router sends a request once [cors()] and the body parsers
    have passed it on: a protected route, any other method or path under
    [/api], [GET /ping], [GET /], or anything else. *)
Inductive target : Type :=
| Api (r : api_route)
| ApiOther
| Ping
| Root
| Other.

(** [x_api_key] is [req.headers['x-api-key']], [body] is [req.body],
    [ip] the source address and [now] the clock when the request is served,
    in milliseconds since the epoch. *)
Record request : Type :=
  { to : target; ip : string; x_api_key : option string; body : value; now : Z }.

(** A header or environment variable as a value: a string, or [undefined]
    when it is not set. *)
Definition of_env (x : option string) : value :=
  match x with
  | Some s => VStr s
  | None => VUndefined
  end.

(** The line feed of ["\n"]. *)
Definition nl : string := String (Ascii.ascii_of_nat 10) "".

Definition res_status_json (code : Z) (b : value) : response :=
  {| status := code; json := b |}.

(** [res.json(b)]: the status stays 200. *)
Definition res_json (b : value) : response := res_status_json 200 b.

Definition error_body (message : string) : value :=
  VObj [("status", VStr "error"); ("message", VStr message)].

Definition success_body (message : string) : value :=
  VObj [("status", VStr "success"); ("message", VStr message)].

(** [devices.findIndex(p)]: [None] stands for -1. *)
Fixpoint findIndex (p : device -> bool) (l : list device) : option nat :=
  match l with
  | [] => None
  | d :: rest => if p d then Some 0%nat else S <$> findIndex p rest
  end.

(** [devices.find(p)]: [None] stands for [undefined]. *)
Fixpoint find (p : device -> bool) (l : list device) : option device :=
  match l with
  | [] => None
  | d :: rest => if p d then Some d else find p rest
  end.

(** ** The limiter of [/api] (lines 24-34) *)

Definition windowMs : Z := 15 * 60 * 1000.

Definition max : Z := 100.

Definition limiter_message : value :=
  VObj [("status", VStr "error");
        ("message",
         VStr "Слишком много запросов с этого IP, пожалуйста, попробуйте позже.")].

(** The status the library gives a refused request when the options name
    none, as here. *)
Definition limiter_statusCode : Z := 429.

(** Modelled from the spec: the policy of [rateLimit] (the package
    express-rate-limit is not under src/).  The spec's words are a sliding
    window of 15 minutes capped at 100 requests per source address: the
    hits of an address that count at time [t] are those of the last
    [windowMs] milliseconds. *)
Definition in_window (address : string) (t : Z) (hit : string * Z) : bool :=
  String.eqb (fst hit) address
  && (t - windowMs <? snd hit)%Z && (snd hit <=? t)%Z.

Definition hits_in_window (l : list (string * Z)) (address : string) (t : Z) : Z :=
  Z.of_nat (length (filter (fun hit => in_window address t hit = true) l)).

(** Modelled from the spec: the middleware [rateLimit] returns.  It counts
    the request, and answers itself with the fixed payload when the address
    is over the cap; otherwise the request goes on. *)
Definition apiLimiter (req : request) (next : M response) : M response :=
  fun st =>
    let counted :=
      {| devices := devices st; hits := (ip req, now req) :: hits st |} in
    if (max <? hits_in_window (hits counted) (ip req) (now req))%Z
    then (Normal (res_status_json limiter_statusCode limiter_message), counted, [])
    else next counted.

(** ** A runtime for the examples

    The properties below hold for every runtime.  The examples are run
    with this one: decimal texts of integral numbers, [parseInt] of a
    decimal text, dates in the ru-RU format at UTC, a platform that refuses
    one bot token, and the secret ["s3cret"]. *)

Module Example.

Definition Number_toString (n : spec_float) : string :=
  match n with
  | S754_zero _ => "0"
  | S754_nan => "NaN"
  | S754_infinity s => if s then "-Infinity" else "Infinity"
  | S754_finite s m e =>
      (if s then "-" else "") +:+ pretty (Z.shiftl (Z.pos m) e)
  end.

Definition digit (c : Ascii.ascii) : option Z :=
  let n := Z.of_N (Ascii.N_of_ascii c) in
  if (48 <=? n)%Z && (n <=? 57)%Z then Some (n - 48)%Z else None.

Fixpoint digits (acc : option Z) (s : string) : option Z :=
  match s with
  | String c rest =>
      match digit c with
      | Some d => digits (Some (10 * default 0%Z acc + d)%Z) rest
      | None => acc
      end
  | EmptyString => acc
  end.

Definition parseInt (s : string) : spec_float :=
  match digits None s with
  | Some n => binary_normalize 53 1024 n 0 false
  | None => S754_nan
  end.

Definition two (n : Z) : string :=
  (if (n <? 10)%Z then "0" else "") +:+ pretty n.

(** The civil date of a day number, counted from 1970-01-01. *)
Definition civil (day : Z) : Z * Z * Z :=
  let z := (day + 719468)%Z in
  let era := (z / 146097)%Z in
  let doe := (z mod 146097)%Z in
  let yoe := ((doe - doe / 1460 + doe / 36524 - doe / 146096) / 365)%Z in
  let doy := (doe - (365 * yoe + yoe / 4 - yoe / 100))%Z in
  let mp := ((5 * doy + 2) / 153)%Z in
  let d := (doy - (153 * mp + 2) / 5 + 1)%Z in
  let m := (if (mp <? 10)%Z then mp + 3 else mp - 9)%Z in
  let y := (yoe + era * 400 + (if (m <=? 2)%Z then 1 else 0))%Z in
  (y, m, d).

Definition toLocaleString (t : option Z) : string :=
  match t with
  | None => "Invalid Date"
  | Some ms =>
      let '(y, m, d) := civil (ms / 86400000) in
      let s := ((ms mod 86400000) / 1000)%Z in
      two d +:+ "." +:+ two m +:+ "." +:+ pretty y +:+ ", " +:+
      two (s / 3600) +:+ ":" +:+ two ((s / 60) mod 60) +:+ ":" +:+ two (s mod 60)
  end.

Definition axios (c : call) : option string :=
  if String.eqb (url c) "https://api.telegram.org/botBAD/sendMessage"
  then Some "Request failed with status code 404"
  else None.

Definition API_KEY : option string := Some "s3cret".

(** The device of the end-to-end scenario, a registry that holds it, and
    requests from one address at one time. *)
Definition dev1 : device := Build_device (VStr "dev1") (VStr "T") (VStr "123").

Definition one_device : store := {| devices := [dev1]; hits := [] |}.

Definition clock : Z := 1700000000000.

Definition post (r : api_route) (key : option string) (fields : list (string * value))
  : request :=
  {| to := Api r; ip := "203.0.113.7"; x_api_key := key;
     body := VObj fields; now := clock |}.

Definition register (id token chat : string) : request :=
  post registerDevice_route (Some "s3cret")
    [("deviceId", VStr id); ("botToken", VStr token); ("chatId", VStr chat)].

Definition sms (id : string) (timestamp : list (string * value)) : request :=
  post processSms_route (Some "s3cret")
    ([("deviceId", VStr id); ("sender", VStr "+1555"); ("message", VStr "hello")]
     ++ timestamp).

(** A store in which the address of the examples already has [n] hits, all
    one second old. *)
Definition busy (n : nat) : store :=
  {| devices := [dev1]; hits := replicate n ("203.0.113.7", (clock - 1000)%Z) |}.

End Example.

(** ** The code of the server *)

Section Server.

(** What the runtime and the world around the process supply:
    the text of a number ([String(n)]), [parseInt] on a text,
    [new Date(t).toLocaleString('ru-RU')] for a time value [t] ([None] is
    the invalid date), the outcome of an [axios.post] ([None] when the
    platform answers 2xx, otherwise the message of the error the promise
    rejects with), and [process.env.API_KEY]. *)
Variable Number_toString : spec_float -> string.
Variable parseInt : string -> spec_float.
Variable toLocaleString : option Z -> string.
Variable axios : call -> option string.
Variable API_KEY : option string.

(** [String(v)], as a template literal [`${v}`] computes it: [None] when
    it throws the [TypeError].  An array joins its elements with commas,
    [null] and [undefined] elements being empty; a parsed object is
    ["[object Object]"] unless it has a property [toString] of its own,
    which JSON cannot make callable, so that no conversion is left. *)
Fixpoint ToString (v : value) : option string :=
  match v with
  | VUndefined => Some "undefined"
  | VNull => Some "null"
  | VBool b => Some (if b then "true" else "false")
  | VNum n => Some (Number_toString n)
  | VStr s => Some s
  | VArr elements =>
      (fix join (l : list value) : option string :=
         match l with
         | [] => Some ""
         | x :: rest =>
             s ← match x with
                  | VUndefined | VNull => Some ""
                  | _ => ToString x
                  end;
             match rest with
             | [] => Some s
             | _ => r ← join rest; Some (s +:+ "," +:+ r)
             end
         end) elements
  | VObj properties =>
      if has_own "toString" properties then None else Some "[object Object]"
  end.

(** [console.log] and [console.error] of a template literal with the
    values [parts] in it: nothing of the model reads the console, but the
    conversions of the template run, and may throw. *)
Fixpoint console_log (parts : list value) : M unit :=
  match parts with
  | [] => mret tt
  | v :: rest => _ ← template (ToString v); console_log rest
  end.

Definition axios_post (telegramApi : string) (chatId message : value) : M unit :=
  fun st =>
    let c := {| url := telegramApi; chat_id := chatId; text := message;
                parse_mode := "HTML" |} in
    match axios c with
    | None => (Normal tt, st, [c])
    | Some error_message => (Throw error_message, st, [c])
    end.

(** Lines 37-49. *)
Definition checkApiKey (req : request) (next : M response) : M response :=
  let apiKey := of_env (x_api_key req) in
  if negb (truthy apiKey) || negb (strict_eq apiKey (of_env API_KEY)) then
    mret (res_status_json 401 (error_body "Недействительный API-ключ"))
  else next.

Definition telegramApi (botToken : value) : option string :=
  t ← ToString botToken;
  Some ("https://api.telegram.org/bot" +:+ t +:+ "/sendMessage").

(** Lines 55-71. *)
Definition sendToTelegram (botToken chatId message : value) : M bool :=
  try_catch
    (api ← template (telegramApi botToken);
     _ ← axios_post api chatId message;
     _ ← console_log [];
     mret true)
    (fun error_message =>
       _ ← console_log [];
       throw ("Ошибка отправки в Telegram: " +:+ error_message)).

(** Lines 76-100. *)
Definition sendToTelegram_handler (req : request) : M response :=
  try_catch
    (let botToken := get (body req) "botToken" in
     let chatId := get (body req) "chatId" in
     let message := get (body req) "message" in
     if negb (truthy botToken) || negb (truthy chatId) || negb (truthy message)
     then
       mret (res_status_json 400 (error_body
         "Отсутствуют обязательные параметры: botToken, chatId, message"))
     else
       _ ← sendToTelegram botToken chatId message;
       mret (res_json (success_body "Сообщение успешно отправлено")))
    (fun error_message =>
       _ ← console_log [];
       mret (res_status_json 500 (error_body error_message))).

(** The callback of [findIndex] and [find] in the two handlers:
    [device => device.deviceId === deviceId]. *)
Definition same_id (deviceId : value) (device : device) : bool :=
  strict_eq (Registry.deviceId device) deviceId.

(** Lines 103-145. *)
Definition registerDevice_handler (req : request) : M response :=
  try_catch
    (let deviceId := get (body req) "deviceId" in
     let botToken := get (body req) "botToken" in
     let chatId := get (body req) "chatId" in
     if negb (truthy deviceId) || negb (truthy botToken) || negb (truthy chatId)
     then
       mret (res_status_json 400 (error_body
         "Отсутствуют обязательные параметры: deviceId, botToken, chatId"))
     else
       l ← read_devices;
       let existingDeviceIndex := findIndex (same_id deviceId) l in
       match existingDeviceIndex with
       | Some i =>
           _ ← write_devices (<[i := Build_device deviceId botToken chatId]> l);
           _ ← console_log [deviceId];
           mret (res_json (VObj [("status", VStr "success");
                                 ("message", VStr "Устройство успешно обновлено");
                                 ("deviceId", deviceId)]))
       | None =>
           _ ← write_devices (l ++ [Build_device deviceId botToken chatId]);
           _ ← console_log [deviceId];
           mret (res_json (VObj [("status", VStr "success");
                                 ("message", VStr "Устройство успешно зарегистрировано");
                                 ("deviceId", deviceId)]))
       end)
    (fun error_message =>
       _ ← console_log [];
       mret (res_status_json 500 (error_body error_message))).

(** Lines 170-172, at the clock [clock]: [None] when the conversion inside
    [parseInt(timestamp)] throws. *)
Definition formattedTime (timestamp : value) (clock : Z) : option string :=
  if truthy timestamp
  then t ← ToString timestamp; Some (toLocaleString (new_Date (parseInt t)))
  else Some (toLocaleString (Some clock)).

(** Lines 174-177. *)
Definition telegramMessage (sender formattedTime message : string) : string :=
  ("📱 <b>Новое SMS</b>" +:+ nl +:+ nl) +:+
  ("От: <b>" +:+ sender +:+ "</b>" +:+ nl) +:+
  ("Время: " +:+ formattedTime +:+ nl +:+ nl) +:+
  ("Сообщение:" +:+ nl +:+ message).

(** Lines 148-195. *)
Definition processSms_handler (req : request) : M response :=
  try_catch
    (let deviceId := get (body req) "deviceId" in
     let sender := get (body req) "sender" in
     let message := get (body req) "message" in
     let timestamp := get (body req) "timestamp" in
     if negb (truthy deviceId) || negb (truthy sender) || negb (truthy message)
     then
       mret (res_status_json 400 (error_body
         "Отсутствуют обязательные параметры: deviceId, sender, message"))
     else
       l ← read_devices;
       match find (same_id deviceId) l with
       | None =>
           mret (res_status_json 404 (error_body "Устройство не зарегистрировано"))
       | Some device =>
           time ← template (formattedTime timestamp (now req));
           s ← template (ToString sender);
           m ← template (ToString message);
           _ ← sendToTelegram (botToken device) (chatId device)
                 (VStr (telegramMessage s time m));
           _ ← console_log [sender; deviceId];
           mret (res_json (success_body
             "SMS успешно обработано и переслано в Telegram"))
       end)
    (fun error_message =>
       _ ← console_log [];
       mret (res_status_json 500 (error_body error_message))).

(** [app.post(path, checkApiKey, handler)]: lines 76, 103 and 148. *)
Definition route (r : api_route) (req : request) : M response :=
  checkApiKey req
    match r with
    | sendToTelegram_route => sendToTelegram_handler req
    | registerDevice_route => registerDevice_handler req
    | processSms_route => processSms_handler req
    end.

Definition not_found : response :=
  res_status_json 404 (error_body "Маршрут не найден").

(** The application: the limiter is mounted on [/api] before the routes
    (line 34), the handler of ['*'] after them (line 212). *)
Definition app (req : request) : M response :=
  match to req with
  | Api r => apiLimiter req (route r req)
  | ApiOther => apiLimiter req (mret not_found)
  | Ping => mret (res_json (success_body "Сервер активен"))
  | Root =>
      mret (res_json (VObj [("status", VStr "success");
                            ("message", VStr "SMS to Telegram API работает");
                            ("version", VStr "1.0.0")]))
  | Other => mret not_found
  end.

(** The store after a request, and after a list of requests served one
    after the other. *)
Definition serve (st : store) (req : request) : store := snd (fst (app req st)).

Definition run (reqs : list request) (st : store) : store :=
  fold_left serve reqs st.


(** ** Vocabulary of the properties *)

(** A key the gate lets through: the header is set, it is not empty, and
    it is the configured secret. *)
Definition valid_key (req : request) : Prop :=
  exists k, x_api_key req = Some k /\ k <> "" /\ API_KEY = Some k.

Definition unauthorized : response :=
  res_status_json 401 (error_body "Недействительный API-ключ").

(** The fields each route requires. *)
Definition required (r : api_route) : list string :=
  match r with
  | sendToTelegram_route => ["botToken"; "chatId"; "message"]
  | registerDevice_route => ["deviceId"; "botToken"; "chatId"]
  | processSms_route => ["deviceId"; "sender"; "message"]
  end.

Definition missing_parameters (r : api_route) : response :=
  res_status_json 400 (error_body
    match r with
    | sendToTelegram_route =>
        "Отсутствуют обязательные параметры: botToken, chatId, message"
    | registerDevice_route =>
        "Отсутствуют обязательные параметры: deviceId, botToken, chatId"
    | processSms_route =>
        "Отсутствуют обязательные параметры: deviceId, sender, message"
    end).

(** The message of the error [sendToTelegram] throws for a failure whose
    own message is [cause] (line 69). *)
Definition relay_error (cause : string) : string :=
  "Ошибка отправки в Telegram: " +:+ cause.

(** The call [sendToTelegram] makes to the address [api]. *)
Definition posted (api : string) (chatId message : value) : call :=
  {| url := api; chat_id := chatId; text := message; parse_mode := "HTML" |}.

(** What the handler of a relaying route answers once [sendToTelegram]
    has returned or thrown. *)
Definition relayed (ok : string) (outcome : completion bool * store * list call)
  : completion response * store * list call :=
  match outcome with
  | (Normal _, st, sent) => (Normal (res_json (success_body ok)), st, sent)
  | (Throw e, st, sent) => (Normal (res_status_json 500 (error_body e)), st, sent)
  end.

(** The array [devices] after lines 115-130 have stored the record [d]. *)
Definition upsert (l : list device) (d : device) : list device :=
  match findIndex (same_id (deviceId d)) l with
  | Some i => <[i := d]> l
  | None => l ++ [d]
  end.

(** What [/api/registerDevice] answers after storing (lines 122 and 133). *)
Definition registered (existed : bool) (deviceId : value) : response :=
  res_json (VObj [("status", VStr "success");
                  ("message", VStr (if existed
                                    then "Устройство успешно обновлено"
                                    else "Устройство успешно зарегистрировано"));
                  ("deviceId", deviceId)]).

(** No two places of the registry hold identifiers that are [===]; for
    strings that is: equal identifiers. *)
Definition unique_ids (l : list device) : Prop :=
  forall (i j : nat) (di dj : device),
    l !! i = Some di -> l !! j = Some dj ->
    strict_eq (deviceId di) (deviceId dj) = true -> i = j.

Definition truthy_record (d : device) : Prop :=
  truthy (deviceId d) = true /\ truthy (botToken d) = true /\ truthy (chatId d) = true.

(** [part] occurs in [whole]. *)
Definition contains (part whole : string) : Prop :=
  exists pre post, whole = pre +:+ part +:+ post.

(** The targets the limiter is mounted on (line 34). *)
Definition under_api (t : target) : bool :=
  match t with
  | Api _ | ApiOther => true
  | Ping | Root | Other => false
  end.

(** The statuses a protected route can answer with: only [processSms]
    looks a device up, so only it can answer 404. *)
Definition statuses (r : api_route) : list Z :=
  match r with
  | processSms_route => [200; 400; 401; 404; 500]%Z
  | sendToTelegram_route | registerDevice_route => [200; 400; 401; 500]%Z
  end.


(** ** The access gate *)

Lemma checkApiKey_rejects (req : request) (next : M response) :
  x_api_key req = None \/ x_api_key req <> API_KEY ->
  checkApiKey req next = mret unauthorized.
Proof.
  unfold checkApiKey, unauthorized.
  destruct (x_api_key req) as [k|] eqn:Hk; simpl; [|done].
  intros [?|Hne]; [done|].
  destruct (String.eqb k "") eqn:Hempty; simpl; [done|].
  destruct API_KEY as [k'|]; simpl; [|done].
  destruct (String.eqb k k') eqn:Hkk'; simpl; [|done].
  apply String.eqb_eq in Hkk'. congruence.
Qed.

Lemma checkApiKey_passes (req : request) (next : M response) :
  valid_key req -> checkApiKey req next = next.
Proof.
  intros (k & Hk & Hne & Hsecret). unfold checkApiKey.
  rewrite Hk, Hsecret. simpl.
  rewrite String.eqb_refl.
  destruct (String.eqb k "") eqn:Hempty; [|done].
  apply String.eqb_eq in Hempty. done.
Qed.

(** ** Running the monad *)

Ltac run_M :=
  unfold mbind, mret, M_bind, M_ret, try_catch, throw, template,
    read_devices, write_devices; simpl.

(** The validation of each handler, on a body with a falsy required
    field: the 400 and nothing else. *)
Lemma falsy_field_is_400 (r : api_route) (req : request) (st : store) (f : string) :
  valid_key req -> f ∈ required r -> truthy (get (body req) f) = false ->
  route r req st = (Normal (missing_parameters r), st, []).
Proof.
  intros Hkey Hf Hfalsy. unfold route. rewrite checkApiKey_passes by done.
  destruct r; simpl in Hf;
    unfold sendToTelegram_handler, registerDevice_handler, processSms_handler;
    repeat (apply elem_of_cons in Hf as [->|Hf]);
    try (by apply elem_of_nil in Hf);
    rewrite Hfalsy; simpl; rewrite ?orb_true_r; run_M; done.
Qed.

(** ** The relay client *)

Lemma sendToTelegram_run (botToken chatId message : value) (st : store) :
  sendToTelegram botToken chatId message st =
  match telegramApi botToken with
  | None => (Throw (relay_error TypeError_message), st, [])
  | Some api =>
      match axios (posted api chatId message) with
      | None => (Normal true, st, [posted api chatId message])
      | Some cause => (Throw (relay_error cause), st, [posted api chatId message])
      end
  end.
Proof.
  unfold sendToTelegram, axios_post, posted. run_M.
  destruct (telegramApi botToken) as [api|]; simpl; [|done].
  destruct (axios _); done.
Qed.

Lemma sendToTelegram_handler_run (req : request) (st : store) :
  truthy (get (body req) "botToken") = true ->
  truthy (get (body req) "chatId") = true ->
  truthy (get (body req) "message") = true ->
  sendToTelegram_handler req st =
  relayed "Сообщение успешно отправлено"
    (sendToTelegram (get (body req) "botToken") (get (body req) "chatId")
       (get (body req) "message") st).
Proof.
  intros Hb Hc Hm. unfold sendToTelegram_handler. rewrite Hb, Hc, Hm. run_M.
  destruct (sendToTelegram _ _ _ st) as [[[ok|e] st'] sent]; simpl;
    by rewrite app_nil_r.
Qed.

(** ** Values *)

Lemma strict_eq_has_text (a b : value) :
  strict_eq a b = true -> exists s, ToString b = Some s.
Proof. destruct a, b; simpl; try done; eauto. Qed.

Lemma VStr_truthy (s : string) : s <> "" -> truthy (VStr s) = true.
Proof.
  intros Hs. simpl. destruct (String.eqb s "") eqn:E; [|done].
  apply String.eqb_eq in E. done.
Qed.

Lemma find_None (p : device -> bool) (l : list device) :
  (forall d, d ∈ l -> p d = false) -> find p l = None.
Proof.
  induction l as [|d l IH]; intros Hall; simpl; [done|].
  rewrite (Hall d) by apply list_elem_of_here.
  apply IH. intros d' Hd'. apply Hall. by apply list_elem_of_further.
Qed.

Lemma find_Some (p : device -> bool) (l : list device) (d : device) :
  find p l = Some d -> d ∈ l /\ p d = true.
Proof.
  induction l as [|d' l IH]; simpl; [done|].
  destruct (p d') eqn:E.
  - intros [= <-]. split; [apply list_elem_of_here|done].
  - intros H. destruct (IH H) as [? ?]. split; [by apply list_elem_of_further|done].
Qed.

(** ** The handler of [/api/processSms] *)

Lemma processSms_handler_unknown (req : request) (st : store) :
  truthy (get (body req) "deviceId") = true ->
  truthy (get (body req) "sender") = true ->
  truthy (get (body req) "message") = true ->
  find (same_id (get (body req) "deviceId")) (devices st) = None ->
  processSms_handler req st =
  (Normal (res_status_json 404 (error_body "Устройство не зарегистрировано")),
   st, []).
Proof.
  intros Hd Hs Hm Hfind. unfold processSms_handler. rewrite Hd, Hs, Hm. run_M.
  by rewrite Hfind.
Qed.

Lemma processSms_handler_run (req : request) (st : store) (device : device) :
  truthy (get (body req) "deviceId") = true ->
  truthy (get (body req) "sender") = true ->
  truthy (get (body req) "message") = true ->
  find (same_id (get (body req) "deviceId")) (devices st) = Some device ->
  processSms_handler req st =
  match formattedTime (get (body req) "timestamp") (now req),
        ToString (get (body req) "sender"),
        ToString (get (body req) "message") with
  | Some time, Some s, Some m =>
      relayed "SMS успешно обработано и переслано в Telegram"
        (sendToTelegram (botToken device) (chatId device)
           (VStr (telegramMessage s time m)) st)
  | _, _, _ => (Normal (res_status_json 500 (error_body TypeError_message)), st, [])
  end.
Proof.
  intros Hd Hs Hm Hfind. unfold processSms_handler. rewrite Hd, Hs, Hm. run_M.
  rewrite Hfind.
  apply find_Some in Hfind as [_ Hsame].
  apply strict_eq_has_text in Hsame as [id Hid].
  destruct (formattedTime _ _) as [time|]; simpl; [|done].
  destruct (ToString (get (body req) "sender")) as [s|]; simpl; [|done].
  destruct (ToString (get (body req) "message")) as [m|]; simpl; [|done].
  destruct (sendToTelegram _ _ _ st) as [[[ok|e] st'] sent]; simpl;
    [|by rewrite app_nil_r].
  rewrite Hid. run_M. by rewrite app_nil_r.
Qed.

(** ** The handler of [/api/registerDevice] *)

Lemma registerDevice_handler_run (req : request) (st : store) :
  truthy (get (body req) "deviceId") = true ->
  truthy (get (body req) "botToken") = true ->
  truthy (get (body req) "chatId") = true ->
  let d := Build_device (get (body req) "deviceId") (get (body req) "botToken")
             (get (body req) "chatId") in
  let stored := {| devices := upsert (devices st) d; hits := hits st |} in
  registerDevice_handler req st =
  match ToString (get (body req) "deviceId") with
  | Some _ =>
      (Normal (registered
                 (bool_decide (is_Some (findIndex (same_id (deviceId d)) (devices st))))
                 (deviceId d)),
       stored, [])
  | None =>
      (Normal (res_status_json 500 (error_body TypeError_message)), stored, [])
  end.
Proof.
  intros Hd Hb Hc. simpl. unfold registerDevice_handler, upsert, registered.
  rewrite Hd, Hb, Hc. run_M.
  destruct (findIndex _ (devices st)) as [i|]; simpl;
    destruct (ToString (get (body req) "deviceId")); simpl; done.
Qed.

(** ** [===] is a partial equivalence *)

Lemma SFeqb_true (x y : spec_float) :
  SFeqb x y = true <->
  match x, y with
  | S754_zero _, S754_zero _ => True
  | S754_infinity s1, S754_infinity s2 => s1 = s2
  | S754_finite s1 m1 e1, S754_finite s2 m2 e2 => s1 = s2 /\ m1 = m2 /\ e1 = e2
  | _, _ => False
  end.
Proof.
  unfold SFeqb.
  destruct x as [sx|sx| |sx mx ex], y as [sy|sy| |sy my ey]; simpl;
    try (by destruct sx); try (by destruct sy); try (by destruct sx, sy);
    try (split; done).
  change (PosDef.Pos.compare_cont Eq mx my) with (mx ?= my)%positive.
  destruct sx, sy; [| split; [done | by intros [? _]].. |];
    (destruct (Z.compare_spec ex ey) as [->|Hlt|Hgt];
     [|split; [done|lia]..]);
    (destruct (Pos.compare_spec mx my) as [->|Hlt|Hgt]; simpl;
     [done | split; [done|lia]..]).
Qed.

Lemma SFeqb_sym (x y : spec_float) : SFeqb x y = SFeqb y x.
Proof.
  apply eq_true_iff_eq. rewrite !SFeqb_true.
  destruct x, y; try done; intuition congruence.
Qed.

Lemma SFeqb_trans (x y z : spec_float) :
  SFeqb x y = true -> SFeqb y z = true -> SFeqb x z = true.
Proof.
  rewrite !SFeqb_true. destruct x, y, z; try done; intuition congruence.
Qed.

Lemma strict_eq_sym (a b : value) : strict_eq a b = strict_eq b a.
Proof.
  destruct a, b; simpl; try done.
  - by destruct b, b0.
  - apply SFeqb_sym.
  - apply String.eqb_sym.
Qed.

Lemma strict_eq_trans (a b c : value) :
  strict_eq a b = true -> strict_eq b c = true -> strict_eq a c = true.
Proof.
  destruct a, b, c; simpl; try done.
  - destruct b, b0, b1; done.
  - apply SFeqb_trans.
  - intros ->%String.eqb_eq ->%String.eqb_eq. apply String.eqb_refl.
Qed.

Lemma strict_eq_VStr (s : string) : strict_eq (VStr s) (VStr s) = true.
Proof. apply String.eqb_refl. Qed.

(** ** [findIndex] and [find] *)

Lemma findIndex_Some (p : device -> bool) (l : list device) (i : nat) :
  findIndex p l = Some i ->
  exists d, l !! i = Some d /\ p d = true /\
            forall j d', (j < i)%nat -> l !! j = Some d' -> p d' = false.
Proof.
  revert i. induction l as [|d l IH]; intros i; simpl; [done|].
  destruct (p d) eqn:E.
  - intros [= <-]. exists d. repeat split; [done|]. intros j d' Hj. lia.
  - destruct (findIndex p l) as [i'|]; simpl; [|done].
    intros [= <-]. destruct (IH i' eq_refl) as (d0 & Hd0 & Hp & Hfirst).
    exists d0. repeat split; [done..|].
    intros [|j] d' Hj; simpl.
    + by intros [= <-].
    + apply Hfirst. lia.
Qed.

Lemma findIndex_None (p : device -> bool) (l : list device) :
  findIndex p l = None -> forall d, d ∈ l -> p d = false.
Proof.
  induction l as [|d l IH]; simpl; intros Hnone d' Hd'.
  - by apply elem_of_nil in Hd'.
  - destruct (p d) eqn:E; [done|].
    destruct (findIndex p l); [done|].
    apply elem_of_cons in Hd' as [->|Hd']; [done|by apply IH].
Qed.

Lemma find_findIndex (p : device -> bool) (l : list device) :
  find p l = i ← findIndex p l; l !! i.
Proof.
  induction l as [|d l IH]; simpl; [done|].
  destruct (p d); [done|]. rewrite IH. by destruct (findIndex p l).
Qed.

(** ** The registry under [upsert] *)

Lemma upsert_unique (l : list device) (d : device) :
  unique_ids l -> unique_ids (upsert l d).
Proof.
  intros Hl. unfold upsert.
  destruct (findIndex (same_id (deviceId d)) l) as [i|] eqn:Hfind.
  - apply findIndex_Some in Hfind as (d0 & Hd0 & Hsame & _).
    unfold same_id in Hsame.
    intros i1 j1 di dj Hi Hj Heq.
    apply list_lookup_insert_Some in Hi as [(<- & <- & _)|[Hne1 Hi]];
      apply list_lookup_insert_Some in Hj as [(<- & <- & _)|[Hne2 Hj]]; [done| | |].
    + apply (Hl i j1 d0 dj Hd0 Hj). by apply strict_eq_trans with (deviceId d).
    + symmetry. apply (Hl i i1 d0 di Hd0 Hi).
      apply strict_eq_trans with (deviceId d); [done|].
      by rewrite strict_eq_sym.
    + by apply (Hl i1 j1 di dj).
  - pose proof (findIndex_None _ _ Hfind) as Hnone. unfold same_id in Hnone.
    intros i1 j1 di dj Hi Hj Heq.
    apply lookup_snoc_Some in Hi as [[Hlt1 Hi]|[-> <-]];
      apply lookup_snoc_Some in Hj as [[Hlt2 Hj]|[-> <-]]; [| | |done].
    + by apply (Hl i1 j1 di dj).
    + apply list_elem_of_lookup_2 in Hi. apply Hnone in Hi. congruence.
    + apply list_elem_of_lookup_2 in Hj. apply Hnone in Hj.
      rewrite strict_eq_sym in Heq. congruence.
Qed.

Lemma upsert_truthy (l : list device) (d : device) :
  Forall truthy_record l -> truthy_record d -> Forall truthy_record (upsert l d).
Proof.
  intros Hl Hd. unfold upsert. destruct (findIndex _ l) as [i|].
  - by apply Forall_insert.
  - apply Forall_app. split; [done|]. by apply Forall_singleton.
Qed.

(** An identifier that is stored is found afterwards, with the credentials
    just given. *)
Lemma upsert_find (l : list device) (d : device) :
  strict_eq (deviceId d) (deviceId d) = true ->
  find (same_id (deviceId d)) (upsert l d) = Some d.
Proof.
  intros Hrefl. unfold upsert. induction l as [|d0 l IH]; simpl.
  - unfold same_id at 1. by rewrite Hrefl.
  - destruct (same_id (deviceId d) d0) eqn:Hd0; simpl.
    + unfold same_id at 1. by rewrite Hrefl.
    + destruct (findIndex (same_id (deviceId d)) l) as [i|]; simpl;
        by rewrite Hd0.
Qed.

(** ** What a request can do to the store *)

Lemma sendToTelegram_store (botToken chatId message : value) (st : store) :
  snd (fst (sendToTelegram botToken chatId message st)) = st.
Proof.
  rewrite sendToTelegram_run.
  destruct (telegramApi botToken) as [api|]; [|done].
  by destruct (axios _).
Qed.

Lemma relayed_store (ok : string) (outcome : completion bool * store * list call) :
  snd (fst (relayed ok outcome)) = snd (fst outcome).
Proof. by destruct outcome as [[[?|?] ?] ?]. Qed.

Lemma relayed_sent (ok : string) (outcome : completion bool * store * list call) :
  snd (relayed ok outcome) = snd outcome.
Proof. by destruct outcome as [[[?|?] ?] ?]. Qed.

Lemma sendToTelegram_handler_store (req : request) (st : store) :
  snd (fst (sendToTelegram_handler req st)) = st.
Proof.
  destruct (truthy (get (body req) "botToken")) eqn:Hb;
    destruct (truthy (get (body req) "chatId")) eqn:Hc;
    destruct (truthy (get (body req) "message")) eqn:Hm;
    try (unfold sendToTelegram_handler; rewrite Hb, Hc, Hm; by run_M).
  rewrite sendToTelegram_handler_run by done.
  rewrite relayed_store. apply sendToTelegram_store.
Qed.

Lemma processSms_handler_store (req : request) (st : store) :
  snd (fst (processSms_handler req st)) = st.
Proof.
  destruct (truthy (get (body req) "deviceId")) eqn:Hd;
    destruct (truthy (get (body req) "sender")) eqn:Hs;
    destruct (truthy (get (body req) "message")) eqn:Hm;
    try (unfold processSms_handler; rewrite Hd, Hs, Hm; by run_M).
  destruct (find (same_id (get (body req) "deviceId")) (devices st))
    as [device|] eqn:Hfind.
  - rewrite (processSms_handler_run req st device) by done.
    destruct (formattedTime _ _); [|done].
    destruct (ToString (get (body req) "sender")); [|done].
    destruct (ToString (get (body req) "message")); [|done].
    rewrite relayed_store. apply sendToTelegram_store.
  - by rewrite processSms_handler_unknown.
Qed.

Lemma registerDevice_handler_store (req : request) (st : store) :
  let st' := snd (fst (registerDevice_handler req st)) in
  st' = st \/
  exists d, truthy_record d /\
            st' = {| devices := upsert (devices st) d; hits := hits st |}.
Proof.
  destruct (truthy (get (body req) "deviceId")) eqn:Hd;
    destruct (truthy (get (body req) "botToken")) eqn:Hb;
    destruct (truthy (get (body req) "chatId")) eqn:Hc;
    try (left; unfold registerDevice_handler; rewrite Hd, Hb, Hc; by run_M).
  right. eexists. split; [|rewrite registerDevice_handler_run by done;
    by destruct (ToString (get (body req) "deviceId"))].
  done.
Qed.

Lemma route_store (r : api_route) (req : request) (st : store) :
  let st' := snd (fst (route r req st)) in
  st' = st \/
  exists d, truthy_record d /\
            st' = {| devices := upsert (devices st) d; hits := hits st |}.
Proof.
  unfold route, checkApiKey.
  destruct (negb _ || negb _); [by left|].
  destruct r.
  - left. apply sendToTelegram_handler_store.
  - apply registerDevice_handler_store.
  - left. apply processSms_handler_store.
Qed.

Lemma serve_devices (st : store) (req : request) :
  devices (serve st req) = devices st \/
  exists d, truthy_record d /\ devices (serve st req) = upsert (devices st) d.
Proof.
  unfold serve, app. destruct (to req) as [r| | | |]; try (by left).
  - unfold apiLimiter. destruct (max <? _)%Z; [by left|].
    destruct (route_store r req
                {| devices := devices st; hits := (ip req, now req) :: hits st |})
      as [->|(d & Hd & ->)]; [by left|right; by exists d].
  - unfold apiLimiter. by destruct (max <? _)%Z; left.
Qed.

Lemma run_devices (P : list device -> Prop) (reqs : list request) (st : store) :
  (forall l d, P l -> truthy_record d -> P (upsert l d)) ->
  P (devices st) -> P (devices (run reqs st)).
Proof.
  intros Hstep. revert st. induction reqs as [|req reqs IH]; intros st Hst; [done|].
  simpl. apply IH.
  destruct (serve_devices st req) as [->|(d & Hd & ->)]; [done|by apply Hstep].
Qed.

(** ** The properties of the routes *)

(** C2: a request to a protected route whose [X-Api-Key] header is absent,
    or is not exactly the configured secret, is answered 401 by the gate
    whatever the handler behind it is, and so by each of the three routes;
    the store (the registry with it) is as before and nothing is sent to
    the platform. *)
Theorem bad_key_is_unauthorized (r : api_route) (req : request) (st : store) :
  x_api_key req = None \/ x_api_key req <> API_KEY ->
  (forall next : M response,
     checkApiKey req next st =
     (Normal (res_status_json 401 (error_body "Недействительный API-ключ")), st, []))
  /\ route r req st =
     (Normal (res_status_json 401 (error_body "Недействительный API-ключ")), st, []).
Proof.
  intros Hbad. split; [intros next|unfold route];
    by rewrite checkApiKey_rejects.
Qed.

(** C3: a [processSms] request with a valid key and truthy [deviceId],
    [sender] and [message] whose [deviceId] is [===] to the identifier of no
    record is answered 404, with the store as before and no call to the
    platform. *)
Theorem unknown_device_is_not_found (req : request) (st : store) :
  valid_key req ->
  truthy (get (body req) "deviceId") = true ->
  truthy (get (body req) "sender") = true ->
  truthy (get (body req) "message") = true ->
  (forall device, device ∈ devices st ->
     strict_eq (deviceId device) (get (body req) "deviceId") = false) ->
  route processSms_route req st =
  (Normal (res_status_json 404 (error_body "Устройство не зарегистрировано")),
   st, []).
Proof.
  intros Hkey Hd Hs Hm Hnone. unfold route. rewrite checkApiKey_passes by done.
  apply processSms_handler_unknown; try done.
  by apply find_None.
Qed.

(** C4: a request to one of the three routes that passes the gate and whose
    body lacks a required field is answered 400 (with the route's message);
    the store is as before and nothing is sent, so the answer comes before
    any change of the registry and before any call. *)
Theorem missing_field_is_bad_request
  (r : api_route) (req : request) (st : store) (f : string) :
  valid_key req -> f ∈ required r -> get (body req) f = VUndefined ->
  route r req st = (Normal (missing_parameters r), st, [])
  /\ status (missing_parameters r) = 400%Z.
Proof.
  intros Hkey Hf Hmissing. split; [|done].
  apply falsy_field_is_400 with f; try done. by rewrite Hmissing.
Qed.

(** C6: a [sendToTelegram] request with a valid key and truthy [botToken],
    [chatId] and [message] whose call to the platform fails with the
    message [cause] is answered 500 with a message that ends with [cause];
    the call was made once (no second attempt) and the store is as
    before. *)
Theorem relay_failure_is_500 (req : request) (st : store) (api cause : string) :
  valid_key req ->
  truthy (get (body req) "botToken") = true ->
  truthy (get (body req) "chatId") = true ->
  truthy (get (body req) "message") = true ->
  telegramApi (get (body req) "botToken") = Some api ->
  axios (posted api (get (body req) "chatId") (get (body req) "message")) = Some cause ->
  route sendToTelegram_route req st =
  (Normal (res_status_json 500
             (error_body ("Ошибка отправки в Telegram: " +:+ cause))),
   st,
   [posted api (get (body req) "chatId") (get (body req) "message")]).
Proof.
  intros Hkey Hb Hc Hm Hapi Hfail. unfold route.
  rewrite checkApiKey_passes by done.
  rewrite sendToTelegram_handler_run by done.
  rewrite sendToTelegram_run, Hapi, Hfail. done.
Qed.

(** C7: a [registerDevice] request with a valid key, a non-empty string
    [deviceId] and truthy [botToken] and [chatId] is answered 200 with
    status [success] and the [deviceId]; the record is stored by [upsert]
    and found afterwards; the message tells whether the identifier existed,
    and the two messages differ; nothing else depends on that: same status,
    same fields, no call. *)
Theorem registerDevice_succeeds (req : request) (st : store) (id : string) :
  valid_key req ->
  get (body req) "deviceId" = VStr id -> id <> "" ->
  truthy (get (body req) "botToken") = true ->
  truthy (get (body req) "chatId") = true ->
  let d := Build_device (VStr id) (get (body req) "botToken")
             (get (body req) "chatId") in
  let existed :=
    bool_decide (is_Some (findIndex (same_id (VStr id)) (devices st))) in
  let stored := {| devices := upsert (devices st) d; hits := hits st |} in
  route registerDevice_route req st =
  (Normal (res_json (VObj [("status", VStr "success");
                           ("message", VStr (if existed
                                             then "Устройство успешно обновлено"
                                             else "Устройство успешно зарегистрировано"));
                           ("deviceId", VStr id)])),
   stored, [])
  /\ find (same_id (VStr id)) (devices stored) = Some d
  /\ "Устройство успешно обновлено" <> "Устройство успешно зарегистрировано".
Proof.
  intros Hkey Hid Hne Hb Hc d existed stored. split; [|split; [|done]].
  - unfold route. rewrite checkApiKey_passes by done.
    rewrite registerDevice_handler_run; rewrite ?Hid; try done.
    by apply VStr_truthy.
  - apply (upsert_find (devices st) d). apply strict_eq_VStr.
Qed.

(** ** One record per identifier *)

Lemma unique_ids_nil : unique_ids [].
Proof. intros i j di dj Hi. by rewrite lookup_nil in Hi. Qed.

Lemma unique_ids_tail (d0 : device) (l : list device) :
  unique_ids (d0 :: l) -> unique_ids l.
Proof.
  intros H i j di dj Hi Hj Heq.
  assert (S i = S j) by (by apply (H (S i) (S j) di dj)). lia.
Qed.

Lemma unique_ids_head (d0 : device) (l : list device) (x : device) :
  unique_ids (d0 :: l) -> x ∈ l -> strict_eq (deviceId x) (deviceId d0) = false.
Proof.
  intros H [k Hk]%list_elem_of_lookup_1.
  destruct (strict_eq (deviceId x) (deviceId d0)) eqn:E; [|done].
  assert (S k = 0%nat) by (by apply (H (S k) 0%nat x d0)). lia.
Qed.

Lemma filter_none (id : value) (l : list device) :
  (forall x, x ∈ l -> same_id id x = false) ->
  filter (fun x => same_id id x = true) l = [].
Proof.
  induction l as [|x l IH]; intros Hl; [done|].
  rewrite filter_cons_False.
  - apply IH. intros y Hy. apply Hl. by apply list_elem_of_further.
  - rewrite (Hl x) by apply list_elem_of_here. done.
Qed.

(** In a registry without repeated identifiers the records that [===] the
    identifier of a stored record are that record alone. *)
Lemma unique_filter (l : list device) (d : device) :
  unique_ids l -> d ∈ l -> strict_eq (deviceId d) (deviceId d) = true ->
  filter (fun x => same_id (deviceId d) x = true) l = [d].
Proof.
  intros Hl Hd Hrefl. induction l as [|d0 l IH]; [by apply elem_of_nil in Hd|].
  apply elem_of_cons in Hd as [->|Hd].
  - rewrite filter_cons_True by done. f_equal.
    apply filter_none. intros x Hx. by apply unique_ids_head with l.
  - rewrite filter_cons_False.
    + apply IH; [by apply unique_ids_tail with d0|done].
    + unfold same_id. rewrite strict_eq_sym.
      by rewrite (unique_ids_head d0 l d).
Qed.

Lemma upsert_elem (l : list device) (d : device) : d ∈ upsert l d.
Proof.
  unfold upsert. destruct (findIndex (same_id (deviceId d)) l) as [i|] eqn:Hfind.
  - apply findIndex_Some in Hfind as (d0 & Hd0 & _).
    apply list_elem_of_lookup_2 with i. apply list_lookup_insert_eq.
    by apply lookup_lt_Some in Hd0.
  - apply elem_of_app. right. apply list_elem_of_here.
Qed.

Lemma run_unique (reqs : list request) : unique_ids (devices (run reqs init)).
Proof.
  apply run_devices; [|apply unique_ids_nil].
  intros l d Hl _. by apply upsert_unique.
Qed.

Lemma run_truthy (reqs : list request) :
  Forall truthy_record (devices (run reqs init)).
Proof. apply run_devices; [apply upsert_truthy|by apply Forall_nil]. Qed.

Lemma registerDevice_route_store (req : request) (st : store) :
  valid_key req ->
  truthy (get (body req) "deviceId") = true ->
  truthy (get (body req) "botToken") = true ->
  truthy (get (body req) "chatId") = true ->
  snd (fst (route registerDevice_route req st)) =
  {| devices := upsert (devices st)
                  (Build_device (get (body req) "deviceId")
                     (get (body req) "botToken") (get (body req) "chatId"));
     hits := hits st |}.
Proof.
  intros Hkey Hd Hb Hc. unfold route. rewrite checkApiKey_passes by done.
  rewrite registerDevice_handler_run by done.
  by destruct (ToString (get (body req) "deviceId")).
Qed.

(** C1: after any requests the registry holds no two records whose
    identifiers are [===].  Registering with a valid key an identifier that
    was just registered finds it at its place [i] and replaces the record
    there: the registry keeps its length, changes only at [i], and the
    records with that identifier are the one record of the second call,
    with the second call's credentials. *)
Theorem registry_one_record_per_identifier
  (reqs : list request) (req1 req2 : request) :
  let st := run reqs init in
  let st1 := snd (fst (route registerDevice_route req1 st)) in
  let st2 := snd (fst (route registerDevice_route req2 st1)) in
  let id := get (body req2) "deviceId" in
  let d2 := Build_device id (get (body req2) "botToken")
              (get (body req2) "chatId") in
  valid_key req1 -> valid_key req2 ->
  truthy (get (body req1) "deviceId") = true ->
  truthy (get (body req1) "botToken") = true ->
  truthy (get (body req1) "chatId") = true ->
  truthy id = true ->
  truthy (get (body req2) "botToken") = true ->
  truthy (get (body req2) "chatId") = true ->
  strict_eq (get (body req1) "deviceId") id = true ->
  unique_ids (devices st) /\ unique_ids (devices st1) /\ unique_ids (devices st2)
  /\ (exists i, findIndex (same_id id) (devices st1) = Some i
                /\ devices st2 = <[i := d2]> (devices st1))
  /\ length (devices st2) = length (devices st1)
  /\ filter (fun device => same_id id device = true) (devices st2) = [d2].
Proof.
  intros st st1 st2 id d2 Hk1 Hk2 Hd1 Hb1 Hc1 Hd2 Hb2 Hc2 Hsame.
  subst st1 st2. rewrite !registerDevice_route_store by done. simpl.
  fold id. fold d2.
  set (d1 := Build_device (get (body req1) "deviceId") _ _).
  pose proof (run_unique reqs) as Hst. fold st in Hst.
  pose proof (upsert_unique _ d1 Hst) as Hst1.
  pose proof (upsert_unique _ d2 Hst1) as Hst2.
  assert (strict_eq id id = true) as Hrefl.
  { apply strict_eq_trans with (deviceId d1); [by rewrite strict_eq_sym|done]. }
  destruct (findIndex (same_id id) (upsert (devices st) d1)) as [i|] eqn:Hfind.
  - assert (upsert (upsert (devices st) d1) d2 = <[i := d2]> (upsert (devices st) d1))
      as Hupsert by (unfold upsert at 1; simpl; fold id; by rewrite Hfind).
    repeat split; try done.
    + by exists i.
    + by rewrite Hupsert, length_insert.
    + apply (unique_filter _ d2); [done|apply upsert_elem|done].
  - exfalso. pose proof (upsert_elem (devices st) d1) as Hin.
    apply (findIndex_None _ _ Hfind) in Hin. unfold same_id in Hin. simpl in Hin.
    congruence.
Qed.

(** ** The relayed message *)

Lemma append_assoc (a b c : string) : (a +:+ b) +:+ c = a +:+ b +:+ c.
Proof.
  induction a as [|x a IH]; [done|].
  change (String x ((a +:+ b) +:+ c) = String x (a +:+ b +:+ c)).
  by rewrite IH.
Qed.

Lemma append_empty_r (a : string) : a +:+ "" = a.
Proof.
  induction a as [|x a IH]; [done|].
  change (String x (a +:+ "") = String x a). by rewrite IH.
Qed.

Lemma telegramMessage_contains (sender time message : string) :
  contains sender (telegramMessage sender time message)
  /\ contains time (telegramMessage sender time message)
  /\ contains message (telegramMessage sender time message).
Proof.
  unfold contains, telegramMessage. split; [|split].
  - exists (("📱 <b>Новое SMS</b>" +:+ nl +:+ nl) +:+ "От: <b>"). eexists.
    rewrite !append_assoc. reflexivity.
  - exists (("📱 <b>Новое SMS</b>" +:+ nl +:+ nl) +:+
            ("От: <b>" +:+ sender +:+ "</b>" +:+ nl) +:+ "Время: "). eexists.
    rewrite !append_assoc. reflexivity.
  - exists (("📱 <b>Новое SMS</b>" +:+ nl +:+ nl) +:+
            ("От: <b>" +:+ sender +:+ "</b>" +:+ nl) +:+
            ("Время: " +:+ time +:+ nl +:+ nl) +:+ ("Сообщение:" +:+ nl)), "".
    by rewrite !append_assoc, append_empty_r.
Qed.

(** C5, as amended: a [processSms] request with a valid key, a truthy
    [deviceId], non-empty strings [sender] and [message], for a registered
    device whose stored token has a text, makes exactly one call to the
    platform, at the address built from the stored [botToken] and with the
    stored [chatId]; its text contains the sender, the message and the
    time.  The time is rendered by [toLocaleString] from [parseInt] of the
    supplied [timestamp] when that is truthy, and from the clock when it is
    absent or otherwise falsy. *)
Theorem processSms_relays_once
  (req : request) (st : store) (device : device) (api sender message t : string) :
  valid_key req ->
  truthy (get (body req) "deviceId") = true ->
  get (body req) "sender" = VStr sender -> sender <> "" ->
  get (body req) "message" = VStr message -> message <> "" ->
  find (same_id (get (body req) "deviceId")) (devices st) = Some device ->
  telegramApi (botToken device) = Some api ->
  (truthy (get (body req) "timestamp") = true ->
   ToString (get (body req) "timestamp") = Some t) ->
  let time :=
    if truthy (get (body req) "timestamp")
    then toLocaleString (new_Date (parseInt t))
    else toLocaleString (Some (now req)) in
  let text := telegramMessage sender time message in
  let c := posted api (chatId device) (VStr text) in
  route processSms_route req st =
  (Normal match axios c with
          | None =>
              res_json (success_body "SMS успешно обработано и переслано в Telegram")
          | Some cause =>
              res_status_json 500 (error_body ("Ошибка отправки в Telegram: " +:+ cause))
          end,
   st, [c])
  /\ contains sender text /\ contains time text /\ contains message text.
Proof.
  intros Hkey Hd Hs Hsne Hm Hmne Hfind Hapi Ht time text c.
  split; [|apply telegramMessage_contains].
  unfold route. rewrite checkApiKey_passes by done.
  rewrite (processSms_handler_run req st device);
    rewrite ?Hs, ?Hm; try done; try (by apply VStr_truthy).
  assert (formattedTime (get (body req) "timestamp") (now req) = Some time) as ->.
  { unfold formattedTime, time.
    destruct (truthy (get (body req) "timestamp")); [|done].
    by rewrite Ht. }
  simpl. rewrite sendToTelegram_run, Hapi. fold text. fold c.
  by destruct (axios c).
Qed.

(** ** The limiter *)

Lemma in_window_self (address : string) (t : Z) :
  in_window address t (address, t) = true.
Proof.
  unfold in_window, windowMs. simpl. rewrite String.eqb_refl. simpl.
  apply andb_true_iff. split; [apply Z.ltb_lt|apply Z.leb_le]; lia.
Qed.

Lemma hits_in_window_counted (l : list (string * Z)) (address : string) (t : Z) :
  hits_in_window ((address, t) :: l) address t = (1 + hits_in_window l address t)%Z.
Proof.
  unfold hits_in_window.
  rewrite filter_cons_True by apply in_window_self. simpl length. lia.
Qed.

Lemma apiLimiter_admits (req : request) (next : M response) (st : store) :
  (hits_in_window (hits st) (ip req) (now req) < max)%Z ->
  apiLimiter req next st =
  next {| devices := devices st; hits := (ip req, now req) :: hits st |}.
Proof.
  intros Hfew. unfold apiLimiter. cbn [hits].
  rewrite hits_in_window_counted.
  case_match eqn:Hcmp; [|done]. apply Z.ltb_lt in Hcmp. lia.
Qed.

Lemma apiLimiter_refuses (req : request) (next : M response) (st : store) :
  (max <= hits_in_window (hits st) (ip req) (now req))%Z ->
  apiLimiter req next st =
  (Normal (res_status_json limiter_statusCode limiter_message),
   {| devices := devices st; hits := (ip req, now req) :: hits st |}, []).
Proof.
  intros Hmany. unfold apiLimiter. cbn [hits].
  rewrite hits_in_window_counted.
  case_match eqn:Hcmp; [done|]. apply Z.ltb_ge in Hcmp. lia.
Qed.

Lemma app_admitted (r : api_route) (req : request) (st : store) :
  to req = Api r ->
  (hits_in_window (hits st) (ip req) (now req) < max)%Z ->
  app req st =
  route r req {| devices := devices st; hits := (ip req, now req) :: hits st |}.
Proof. intros Hto Hfew. unfold app. rewrite Hto. by apply apiLimiter_admits. Qed.

(** C8: the window is 15 minutes and the cap 100.  A request to a target
    under [/api] from an address that already has 100 or more hits in the
    window is counted and answered by the limiter with its fixed payload:
    no gate and no handler runs, so the registry is as before and nothing
    is sent. *)
Theorem limiter_caps_requests (req : request) (st : store) :
  under_api (to req) = true ->
  (max <= hits_in_window (hits st) (ip req) (now req))%Z ->
  app req st =
  (Normal (res_status_json limiter_statusCode limiter_message),
   {| devices := devices st; hits := (ip req, now req) :: hits st |}, [])
  /\ windowMs = 900000%Z /\ max = 100%Z.
Proof.
  intros Hapi Hmany. split; [|done].
  unfold app. destruct (to req); try done; by apply apiLimiter_refuses.
Qed.

(** ** What [processSms] sends *)

Lemma processSms_handler_sent (req : request) (st : store) (c : call) :
  c ∈ snd (processSms_handler req st) ->
  exists device,
    find (same_id (get (body req) "deviceId")) (devices st) = Some device
    /\ telegramApi (botToken device) = Some (url c)
    /\ chat_id c = chatId device.
Proof.
  destruct (truthy (get (body req) "deviceId")) eqn:Hd;
    destruct (truthy (get (body req) "sender")) eqn:Hs;
    destruct (truthy (get (body req) "message")) eqn:Hm;
    try (unfold processSms_handler; rewrite Hd, Hs, Hm; run_M;
         by intros ?%elem_of_nil).
  destruct (find (same_id (get (body req) "deviceId")) (devices st))
    as [device|] eqn:Hfind.
  - rewrite (processSms_handler_run req st device) by done.
    destruct (formattedTime _ _) as [time|]; [|by intros ?%elem_of_nil].
    destruct (ToString (get (body req) "sender")) as [s|];
      [|by intros ?%elem_of_nil].
    destruct (ToString (get (body req) "message")) as [m|];
      [|by intros ?%elem_of_nil].
    rewrite relayed_sent, sendToTelegram_run.
    destruct (telegramApi (botToken device)) as [api|] eqn:Hapi;
      [|by intros ?%elem_of_nil].
    intros Hc. exists device.
    assert (c = posted api (chatId device) (VStr (telegramMessage s time m))) as ->.
    { destruct (axios _); simpl in Hc; by apply list_elem_of_singleton in Hc. }
    by rewrite Hapi.
  - rewrite processSms_handler_unknown by done. by intros ?%elem_of_nil.
Qed.

(** C10: after any requests every record of the registry has truthy
    [deviceId], [botToken] and [chatId]; [registerDevice] answers 400 and
    stores nothing when a required field is falsy in any way (absent,
    [null], [false], [0] or the empty string); and whatever [processSms]
    sends goes to the address built from the token of a stored record, with
    its chat identifier, both truthy. *)
Theorem stored_credentials_are_truthy (reqs : list request) :
  let st := run reqs init in
  Forall truthy_record (devices st)
  /\ (forall (req : request) (f : string),
        valid_key req -> f ∈ required registerDevice_route ->
        get (body req) f ∈ [VUndefined; VNull; VBool false;
                            VNum (S754_zero false); VStr ""] ->
        route registerDevice_route req st =
        (Normal (missing_parameters registerDevice_route), st, []))
  /\ (forall (req : request) (c : call),
        c ∈ snd (route processSms_route req st) ->
        exists device,
          device ∈ devices st
          /\ truthy (botToken device) = true /\ truthy (chatId device) = true
          /\ botToken device <> VStr "" /\ chatId device <> VStr ""
          /\ telegramApi (botToken device) = Some (url c)
          /\ chat_id c = chatId device).
Proof.
  intros st. pose proof (run_truthy reqs) as Hst. fold st in Hst.
  split; [done|split].
  - intros req f Hkey Hf Hfalsy. apply falsy_field_is_400 with f; try done.
    repeat (apply elem_of_cons in Hfalsy as [->|Hfalsy]; [done|]).
    by apply elem_of_nil in Hfalsy.
  - intros req c. unfold route, checkApiKey.
    destruct (negb _ || negb _); [by intros ?%elem_of_nil|].
    intros (device & Hfind & Hurl & Hchat)%processSms_handler_sent.
    apply find_Some in Hfind as [Hin _].
    exists device. rewrite Forall_forall in Hst.
    destruct (Hst device Hin) as (_ & Hb & Hc).
    split_and!; try done; intros Hempty; by rewrite Hempty in *.
Qed.

(** ** Identifiers that are not strings *)

(** X1: an identifier that is an array or an object is [===] to no stored
    identifier: registering it with a valid key appends a record every
    time. *)
Theorem structured_identifier_is_appended (req : request) (st : store) :
  valid_key req ->
  (exists elements, get (body req) "deviceId" = VArr elements)
  \/ (exists properties, get (body req) "deviceId" = VObj properties) ->
  truthy (get (body req) "botToken") = true ->
  truthy (get (body req) "chatId") = true ->
  devices (snd (fst (route registerDevice_route req st))) =
  devices st ++ [Build_device (get (body req) "deviceId")
                   (get (body req) "botToken") (get (body req) "chatId")].
Proof.
  intros Hkey Hid Hb Hc.
  assert (truthy (get (body req) "deviceId") = true) as Hd
    by (destruct Hid as [[? ->]|[? ->]]; done).
  rewrite registerDevice_route_store by done. simpl. unfold upsert. simpl.
  assert (findIndex (same_id (get (body req) "deviceId")) (devices st) = None) as ->;
    [|done].
  induction (devices st) as [|d l IH]; simpl; [done|].
  rewrite IH. unfold same_id.
  destruct Hid as [[? ->]|[? ->]]; by destruct (deviceId d).
Qed.

(** X2: an identifier without a text, such as an object with a [toString]
    property of its own, is stored, then the log line of the handler
    throws, and the answer is 500. *)
Theorem identifier_without_text_is_stored (req : request) (st : store) :
  valid_key req ->
  truthy (get (body req) "deviceId") = true ->
  truthy (get (body req) "botToken") = true ->
  truthy (get (body req) "chatId") = true ->
  ToString (get (body req) "deviceId") = None ->
  route registerDevice_route req st =
  (Normal (res_status_json 500
             (error_body "Cannot convert object to primitive value")),
   {| devices := devices st ++ [Build_device (get (body req) "deviceId")
                                  (get (body req) "botToken")
                                  (get (body req) "chatId")];
      hits := hits st |}, []).
Proof.
  intros Hkey Hd Hb Hc Hnone. unfold route. rewrite checkApiKey_passes by done.
  rewrite registerDevice_handler_run by done. rewrite Hnone. simpl.
  unfold upsert. simpl.
  assert (findIndex (same_id (get (body req) "deviceId")) (devices st) = None) as ->;
    [|done].
  induction (devices st) as [|d l IH]; simpl; [done|].
  rewrite IH. unfold same_id.
  destruct (strict_eq (deviceId d) (get (body req) "deviceId")) eqn:Heq; [|done].
  apply strict_eq_has_text in Heq as [text Htext]. congruence.
Qed.

(** ** Further properties of the gate and the handlers *)

(** X3: the gate lets through nothing but a valid key.  A request whose
    header is not a non-empty text equal to the configured secret is
    answered 401 on every route, with the store as before and no call;
    this includes an empty header when the secret itself is configured
    empty. *)
Theorem invalid_key_is_unauthorized (r : api_route) (req : request) (st : store) :
  ~ valid_key req ->
  route r req st =
  (Normal (res_status_json 401 (error_body "Недействительный API-ключ")), st, []).
Proof.
  intros Hinvalid. unfold route, checkApiKey.
  destruct (x_api_key req) as [k|] eqn:Hk; simpl; [|done].
  destruct (String.eqb k "") eqn:Hempty; simpl; [done|].
  destruct API_KEY as [k'|] eqn:Hsecret; simpl; [|done].
  destruct (String.eqb k k') eqn:Hkk'; simpl; [|done].
  exfalso. apply Hinvalid. exists k.
  apply String.eqb_eq in Hkk'. apply String.eqb_neq in Hempty.
  unfold valid_key. by subst.
Qed.

Lemma elem_of_statuses_weaken (r : api_route) (code : Z) :
  code ∈ [200; 400; 401; 500]%Z -> code ∈ statuses r.
Proof.
  destruct r; simpl; try done.
  rewrite !elem_of_cons. tauto.
Qed.









(** ** Where the effects are *)

Lemma sendToTelegram_sent (botToken chatId message : value) (st : store) :
  (length (snd (sendToTelegram botToken chatId message st)) <= 1)%nat.
Proof.
  rewrite sendToTelegram_run.
  destruct (telegramApi botToken) as [api|]; simpl; [|lia].
  destruct (axios _); simpl; lia.
Qed.

Lemma sendToTelegram_handler_sent (req : request) (st : store) :
  (length (snd (sendToTelegram_handler req st)) <= 1)%nat.
Proof.
  destruct (truthy (get (body req) "botToken")) eqn:Hb;
    destruct (truthy (get (body req) "chatId")) eqn:Hc;
    destruct (truthy (get (body req) "message")) eqn:Hm;
    try (unfold sendToTelegram_handler; rewrite Hb, Hc, Hm; run_M; lia).
  rewrite sendToTelegram_handler_run by done.
  rewrite relayed_sent. apply sendToTelegram_sent.
Qed.

Lemma processSms_handler_sent_once (req : request) (st : store) :
  (length (snd (processSms_handler req st)) <= 1)%nat.
Proof.
  destruct (truthy (get (body req) "deviceId")) eqn:Hd;
    destruct (truthy (get (body req) "sender")) eqn:Hs;
    destruct (truthy (get (body req) "message")) eqn:Hm;
    try (unfold processSms_handler; rewrite Hd, Hs, Hm; run_M; lia).
  destruct (find (same_id (get (body req) "deviceId")) (devices st))
    as [device|] eqn:Hfind.
  - rewrite (processSms_handler_run req st device) by done.
    destruct (formattedTime _ _); [|simpl; lia].
    destruct (ToString (get (body req) "sender")); [|simpl; lia].
    destruct (ToString (get (body req) "message")); [|simpl; lia].
    rewrite relayed_sent. apply sendToTelegram_sent.
  - rewrite processSms_handler_unknown by done. simpl. lia.
Qed.

Lemma registerDevice_handler_sent (req : request) (st : store) :
  snd (registerDevice_handler req st) = [].
Proof.
  destruct (truthy (get (body req) "deviceId")) eqn:Hd;
    destruct (truthy (get (body req) "botToken")) eqn:Hb;
    destruct (truthy (get (body req) "chatId")) eqn:Hc;
    try (unfold registerDevice_handler; rewrite Hd, Hb, Hc; by run_M).
  rewrite registerDevice_handler_run by done.
  by destruct (ToString (get (body req) "deviceId")).
Qed.

Lemma route_sent (r : api_route) (req : request) (st : store) :
  (length (snd (route r req st)) <= 1)%nat
  /\ (r = registerDevice_route -> snd (route r req st) = []).
Proof.
  unfold route, checkApiKey.
  destruct (negb _ || negb _); [simpl; split; [lia|done]|].
  destruct r; (split; [|try done]).
  - apply sendToTelegram_handler_sent.
  - rewrite registerDevice_handler_sent. simpl. lia.
  - intros _. apply registerDevice_handler_sent.
  - apply processSms_handler_sent_once.
Qed.

Lemma other_routes_store (r : api_route) (req : request) (st : store) :
  r <> registerDevice_route -> snd (fst (route r req st)) = st.
Proof.
  intros Hr. unfold route, checkApiKey. destruct (negb _ || negb _); [done|].
  destruct r; try done.
  - apply sendToTelegram_handler_store.
  - apply processSms_handler_store.
Qed.

(** X5: the registry changes through [/api/registerDevice] and through
    nothing else: a request to any other target, whatever its key and
    body, leaves the array [devices] as it was; the routes
    [sendToTelegram] and [processSms] leave the whole store as it was. *)
Theorem only_registerDevice_changes_the_registry
  (r : api_route) (req : request) (st : store) :
  (to req <> Api registerDevice_route -> devices (serve st req) = devices st)
  /\ (r <> registerDevice_route -> snd (fst (route r req st)) = st).
Proof.
  split.
  - intros Hto. unfold serve, app. destruct (to req) as [r'| | | |]; try done.
    + unfold apiLimiter. case_match; [done|].
      destruct r'; try done.
      * unfold route, checkApiKey. destruct (negb _ || negb _); [done|].
        by rewrite sendToTelegram_handler_store.
      * unfold route, checkApiKey. destruct (negb _ || negb _); [done|].
        by rewrite processSms_handler_store.
    + unfold apiLimiter. by case_match.
  - apply other_routes_store.
Qed.

(** X6: a request makes at most one call to the platform, and none at all
    unless it is for [sendToTelegram] or [processSms]: registering a device,
    [/ping], [/] and unknown paths never reach the platform, and no path
    of a handler calls twice. *)
Theorem at_most_one_call_per_request (req : request) (st : store) :
  (length (snd (app req st)) <= 1)%nat
  /\ (snd (app req st) <> [] ->
      to req = Api sendToTelegram_route \/ to req = Api processSms_route).
Proof.
  unfold app. destruct (to req) as [r| | | |]; try (simpl; split; [lia|done]).
  - unfold apiLimiter. case_match; [simpl; split; [lia|done]|].
    destruct (route_sent r req
                {| devices := devices st; hits := (ip req, now req) :: hits st |})
      as [Hlen Hreg].
    split; [done|]. destruct r; auto.
    intros Hsent. by rewrite Hreg in Hsent.
  - unfold apiLimiter. case_match; simpl; (split; [lia|done]).
Qed.

(** ** The registry over time *)

Lemma upsert_length (l : list device) (d : device) :
  (length l <= length (upsert l d) <= S (length l))%nat.
Proof.
  unfold upsert. destruct (findIndex _ l).
  - rewrite length_insert. lia.
  - rewrite length_app. simpl. lia.
Qed.

(** X7: the registry never shrinks and grows by at most one record per
    request, so after any requests it holds at most as many records as
    there were requests. *)
Theorem registry_grows_by_at_most_one (reqs : list request) (req : request) (st : store) :
  (length (devices st) <= length (devices (serve st req)) <= S (length (devices st)))%nat
  /\ (length (devices (run reqs init)) <= length reqs)%nat.
Proof.
  assert (forall st0 req0,
    (length (devices st0) <= length (devices (serve st0 req0))
     <= S (length (devices st0)))%nat) as Hstep.
  { intros st0 req0. destruct (serve_devices st0 req0) as [->|(d & _ & ->)]; [lia|].
    apply upsert_length. }
  split; [apply Hstep|].
  assert (forall st0, (length (devices (run reqs st0))
                       <= length (devices st0) + length reqs)%nat) as Hrun.
  { induction reqs as [|r0 reqs IH]; intros st0; simpl; [lia|].
    specialize (IH (serve st0 r0)). specialize (Hstep st0 r0). lia. }
  apply (Hrun init).
Qed.

Lemma same_id_congruent (id id' : value) (x : device) :
  strict_eq id id' = true -> same_id id x = same_id id' x.
Proof.
  intros Heq. unfold same_id. apply eq_true_iff_eq. split; intros Hx.
  - by apply strict_eq_trans with id.
  - apply strict_eq_trans with id'; [done|by rewrite strict_eq_sym].
Qed.

Lemma find_upsert_other (l : list device) (d : device) (id : value) :
  strict_eq (deviceId d) id = false ->
  find (same_id id) (upsert l d) = find (same_id id) l.
Proof.
  intros Hother. unfold upsert. induction l as [|d0 l IH]; simpl.
  - unfold same_id at 1. by rewrite Hother.
  - destruct (same_id (deviceId d) d0) eqn:Hd0; simpl.
    + unfold same_id at 1. rewrite Hother.
      destruct (same_id id d0) eqn:Hid0; [|done].
      unfold same_id in Hd0, Hid0. rewrite strict_eq_sym in Hd0.
      by rewrite (strict_eq_trans _ _ _ Hd0 Hid0) in Hother.
    + destruct (findIndex (same_id (deviceId d)) l) as [i|]; simpl in *;
        by rewrite IH.
Qed.

Lemma find_upsert_same (l : list device) (d : device) (id : value) :
  strict_eq (deviceId d) id = true ->
  find (same_id id) (upsert l d) = Some d.
Proof.
  intros Hsame.
  assert (strict_eq (deviceId d) (deviceId d) = true) as Hrefl
    by (apply strict_eq_trans with id; [done|by rewrite strict_eq_sym]).
  rewrite <- (upsert_find l d Hrefl).
  clear Hrefl. induction (upsert l d) as [|x l' IH]; simpl; [done|].
  rewrite <- (same_id_congruent (deviceId d) id x Hsame).
  by destruct (same_id (deviceId d) x).
Qed.

(** X8: no request removes a device, and a registration touches only its
    own identifier.  A device that is found stays found after any request;
    it keeps its record unless the request registers an identifier that is
    [===] to the one looked up, in which case the new record is found. *)
Theorem registry_never_forgets (req : request) (st : store) (id : value) (d : device) :
  find (same_id id) (devices st) = Some d ->
  (exists d', find (same_id id) (devices (serve st req)) = Some d')
  /\ (strict_eq (get (body req) "deviceId") id = false ->
      find (same_id id) (devices (serve st req)) = Some d).
Proof.
  intros Hfound.
  assert (devices (serve st req) = devices st
          \/ devices (serve st req) =
             upsert (devices st)
               (Build_device (get (body req) "deviceId")
                  (get (body req) "botToken") (get (body req) "chatId")))
    as [->| ->].
  { unfold serve, app. destruct (to req) as [r| | | |]; try (by left).
    - unfold apiLimiter. case_match; [by left|].
      destruct r.
      + left. by rewrite other_routes_store.
      + unfold route, checkApiKey. destruct (negb _ || negb _); [by left|].
        destruct (truthy (get (body req) "deviceId")) eqn:Hd;
          destruct (truthy (get (body req) "botToken")) eqn:Hb;
          destruct (truthy (get (body req) "chatId")) eqn:Hc;
          try (left; unfold registerDevice_handler; rewrite Hd, Hb, Hc; by run_M).
        right. rewrite registerDevice_handler_run by done.
        by destruct (ToString (get (body req) "deviceId")).
      + left. by rewrite other_routes_store.
    - unfold apiLimiter. by case_match; left. }
  - split; [by exists d|done].
  - split.
    + destruct (strict_eq (get (body req) "deviceId") id) eqn:Hid.
      * eexists. by apply find_upsert_same.
      * exists d. by rewrite find_upsert_other.
    + intros Hid. by rewrite find_upsert_other.
Qed.

(** ** Registering, then relaying *)

(** X9: what is registered is what is used.  After a registration with a
    valid key of the string identifier [id] with the string token [token],
    on any store (the identifier may already be there with other
    credentials), a [processSms] request for [id] with string [sender]
    and [message] makes exactly one call: to the address built from
    [token], with the [chatId] just registered. *)
Theorem registered_device_is_relayed_to
  (reg sms : request) (st : store) (id token sender message time : string) :
  valid_key reg -> valid_key sms ->
  get (body reg) "deviceId" = VStr id -> id <> "" ->
  get (body reg) "botToken" = VStr token -> token <> "" ->
  truthy (get (body reg) "chatId") = true ->
  get (body sms) "deviceId" = VStr id ->
  get (body sms) "sender" = VStr sender -> sender <> "" ->
  get (body sms) "message" = VStr message -> message <> "" ->
  formattedTime (get (body sms) "timestamp") (now sms) = Some time ->
  let st1 := snd (fst (route registerDevice_route reg st)) in
  snd (route processSms_route sms st1) =
  [posted ("https://api.telegram.org/bot" +:+ token +:+ "/sendMessage")
     (get (body reg) "chatId") (VStr (telegramMessage sender time message))].
Proof.
  intros Hkreg Hksms Hid Hidne Htok Htokne Hchat Hsid Hs Hsne Hm Hmne Htime st1.
  subst st1. rewrite registerDevice_route_store;
    rewrite ?Hid, ?Htok; try done; try (by apply VStr_truthy).
  unfold route. rewrite checkApiKey_passes by done.
  rewrite (processSms_handler_run sms _
             (Build_device (VStr id) (VStr token) (get (body reg) "chatId")));
    rewrite ?Hsid, ?Hs, ?Hm; try done; try (by apply VStr_truthy).
  - rewrite Htime. simpl. rewrite relayed_sent, sendToTelegram_run. simpl.
    by destruct (axios _).
  - simpl. apply (find_upsert_same _
      (Build_device (VStr id) (VStr token) (get (body reg) "chatId"))).
    apply strict_eq_VStr.
Qed.

(** X10: a [sendToTelegram] request with a valid key and truthy fields that
    the platform accepts is answered 200; the one call carries the [chatId]
    and the [message] of the body as they came (the message is not
    converted or wrapped) with [parse_mode] ["HTML"], and the store is as
    before. *)
Theorem relay_success_is_200 (req : request) (st : store) (api : string) :
  valid_key req ->
  truthy (get (body req) "botToken") = true ->
  truthy (get (body req) "chatId") = true ->
  truthy (get (body req) "message") = true ->
  telegramApi (get (body req) "botToken") = Some api ->
  axios {| url := api; chat_id := get (body req) "chatId";
           text := get (body req) "message"; parse_mode := "HTML" |} = None ->
  route sendToTelegram_route req st =
  (Normal (res_status_json 200 (success_body "Сообщение успешно отправлено")),
   st,
   [{| url := api; chat_id := get (body req) "chatId";
       text := get (body req) "message"; parse_mode := "HTML" |}]).
Proof.
  intros Hkey Hb Hc Hm Hapi Hok. unfold route.
  rewrite checkApiKey_passes by done.
  rewrite sendToTelegram_handler_run by done.
  rewrite sendToTelegram_run, Hapi. unfold posted. by rewrite Hok.
Qed.

(** X11: a [sendToTelegram] request whose truthy [botToken] has no text (an
    object with a [toString] property of its own) is answered 500 with the
    relay error around the [TypeError]'s message, and no call is made: the
    address is built inside the [try] of [sendToTelegram], before
    [axios.post]. *)
Theorem token_without_text_is_500 (req : request) (st : store) :
  valid_key req ->
  truthy (get (body req) "botToken") = true ->
  truthy (get (body req) "chatId") = true ->
  truthy (get (body req) "message") = true ->
  ToString (get (body req) "botToken") = None ->
  route sendToTelegram_route req st =
  (Normal (res_status_json 500 (error_body
     "Ошибка отправки в Telegram: Cannot convert object to primitive value")),
   st, []).
Proof.
  intros Hkey Hb Hc Hm Hnone. unfold route.
  rewrite checkApiKey_passes by done.
  rewrite sendToTelegram_handler_run by done.
  rewrite sendToTelegram_run. unfold telegramApi. by rewrite Hnone.
Qed.

(** X12: a [processSms] request for a registered device whose truthy
    [timestamp], [sender] or [message] has no text is answered 500 with the
    [TypeError]'s message; nothing is sent and the store is as before,
    because the message is formatted before [sendToTelegram] is called. *)
Theorem field_without_text_is_500 (req : request) (st : store) (device : device) :
  valid_key req ->
  truthy (get (body req) "deviceId") = true ->
  truthy (get (body req) "sender") = true ->
  truthy (get (body req) "message") = true ->
  find (same_id (get (body req) "deviceId")) (devices st) = Some device ->
  (truthy (get (body req) "timestamp") = true
   /\ ToString (get (body req) "timestamp") = None)
  \/ ToString (get (body req) "sender") = None
  \/ ToString (get (body req) "message") = None ->
  route processSms_route req st =
  (Normal (res_status_json 500 (error_body "Cannot convert object to primitive value")),
   st, []).
Proof.
  intros Hkey Hd Hs Hm Hfind Hnone. unfold route.
  rewrite checkApiKey_passes by done.
  rewrite (processSms_handler_run req st device) by done.
  destruct Hnone as [[Ht Hnone]|[Hnone|Hnone]].
  - unfold formattedTime. by rewrite Ht, Hnone.
  - rewrite Hnone. by destruct (formattedTime _ _).
  - rewrite Hnone. destruct (formattedTime _ _); [|done].
    by destruct (ToString (get (body req) "sender")).
Qed.

Lemma findIndex_upsert (l : list device) (d : device) :
  strict_eq (deviceId d) (deviceId d) = true ->
  exists i, findIndex (same_id (deviceId d)) (upsert l d) = Some i
            /\ upsert l d !! i = Some d.
Proof.
  intros Hrefl. unfold upsert. induction l as [|d0 l IH]; simpl.
  - exists 0%nat. unfold same_id at 1. by rewrite Hrefl.
  - destruct (same_id (deviceId d) d0) eqn:Hd0; simpl.
    + exists 0%nat. unfold same_id at 1. by rewrite Hrefl.
    + destruct IH as (i & Hi & Hlook). exists (S i).
      destruct (findIndex (same_id (deviceId d)) l) as [k|]; simpl in *;
        by rewrite Hd0, Hi.
Qed.

(** X13: registering is idempotent.  Repeating a registration (same
    identifier, token and chat, the identifier being [===] to itself as
    every string is) leaves the store exactly as the first one left it and
    is answered 200 with the message of an update. *)
Theorem registering_again_changes_nothing (req : request) (st : store) :
  valid_key req ->
  truthy (get (body req) "deviceId") = true ->
  truthy (get (body req) "botToken") = true ->
  truthy (get (body req) "chatId") = true ->
  strict_eq (get (body req) "deviceId") (get (body req) "deviceId") = true ->
  let st1 := snd (fst (route registerDevice_route req st)) in
  route registerDevice_route req st1 =
  (Normal (res_json (VObj [("status", VStr "success");
                           ("message", VStr "Устройство успешно обновлено");
                           ("deviceId", get (body req) "deviceId")])),
   st1, []).
Proof.
  intros Hkey Hd Hb Hc Hrefl st1. subst st1.
  rewrite registerDevice_route_store by done.
  unfold route. rewrite checkApiKey_passes by done.
  rewrite registerDevice_handler_run by done.
  destruct (strict_eq_has_text _ _ Hrefl) as [text ->]. simpl.
  destruct (findIndex_upsert (devices st)
              (Build_device (get (body req) "deviceId") (get (body req) "botToken")
                 (get (body req) "chatId")) Hrefl) as (i & Hi & Hlook).
  simpl in Hi. unfold registered. simpl. rewrite Hi.
  unfold upsert at 1. simpl. rewrite Hi. by rewrite list_insert_id.
Qed.

(** ** Where a record comes from *)

Lemma gate_decides (req : request) :
  valid_key req \/ forall next, checkApiKey req next = mret unauthorized.
Proof.
  unfold checkApiKey, unauthorized, valid_key.
  destruct (x_api_key req) as [k|]; simpl; [|by right].
  destruct (String.eqb k "") eqn:Hempty; simpl; [by right|].
  destruct API_KEY as [k'|]; simpl; [|by right].
  destruct (String.eqb k k') eqn:Hkk'; simpl; [|by right].
  left. exists k. apply String.eqb_eq in Hkk'. apply String.eqb_neq in Hempty.
  by subst.
Qed.

Lemma serve_origin (st : store) (req : request) :
  devices (serve st req) = devices st
  \/ (to req = Api registerDevice_route /\ valid_key req
      /\ devices (serve st req) =
         upsert (devices st)
           (Build_device (get (body req) "deviceId") (get (body req) "botToken")
              (get (body req) "chatId"))).
Proof.
  unfold serve, app. destruct (to req) as [r| | | |] eqn:Hto; try (by left).
  - unfold apiLimiter. case_match; [by left|].
    destruct r; try (left; by rewrite other_routes_store).
    destruct (gate_decides req) as [Hkey|Hbad];
      [|left; unfold route; by rewrite Hbad].
    unfold route. rewrite checkApiKey_passes by done.
    destruct (truthy (get (body req) "deviceId")) eqn:Hd;
      destruct (truthy (get (body req) "botToken")) eqn:Hb;
      destruct (truthy (get (body req) "chatId")) eqn:Hc;
      try (left; unfold registerDevice_handler; rewrite Hd, Hb, Hc; by run_M).
    right. split_and!; try done.
    rewrite registerDevice_handler_run by done.
    by destruct (ToString (get (body req) "deviceId")).
  - unfold apiLimiter. by case_match; left.
Qed.

Lemma elem_of_upsert (l : list device) (d x : device) :
  x ∈ upsert l d -> x ∈ l \/ x = d.
Proof.
  unfold upsert. destruct (findIndex _ l) as [i|].
  - intros [j Hj]%list_elem_of_lookup_1.
    apply list_lookup_insert_Some in Hj as [(_ & -> & _)|[_ Hj]]; [by right|].
    left. by apply list_elem_of_lookup_2 with j.
  - rewrite elem_of_app, list_elem_of_singleton. tauto.
Qed.

(** X14: every record of the registry was put there by a request to
    [/api/registerDevice] that carried a valid key, and holds exactly the
    three fields of that request's body: nothing enters the registry
    without the secret, and nothing rewrites a stored field. *)
Theorem every_record_was_registered (reqs : list request) (d : device) :
  d ∈ devices (run reqs init) ->
  exists req,
    req ∈ reqs /\ to req = Api registerDevice_route /\ valid_key req
    /\ get (body req) "deviceId" = deviceId d
    /\ get (body req) "botToken" = botToken d
    /\ get (body req) "chatId" = chatId d.
Proof.
  assert (forall st, d ∈ devices (run reqs st) ->
    d ∈ devices st \/
    exists req,
      req ∈ reqs /\ to req = Api registerDevice_route /\ valid_key req
      /\ get (body req) "deviceId" = deviceId d
      /\ get (body req) "botToken" = botToken d
      /\ get (body req) "chatId" = chatId d) as Hrun.
  { induction reqs as [|r0 reqs IH]; intros st; simpl; [by left|].
    intros Hd. destruct (IH _ Hd) as [Hin|(req & Hreq & Hrest)].
    - destruct (serve_origin st r0) as [Heq|(Hto & Hkey & Heq)];
        rewrite Heq in Hin; [by left|].
      apply elem_of_upsert in Hin as [Hin| ->]; [by left|].
      right. exists r0. split_and!; try done. apply list_elem_of_here.
    - right. exists req. split; [by apply list_elem_of_further|done]. }
  intros Hd. destruct (Hrun init Hd) as [Hin|Hreq]; [|done].
  by apply elem_of_nil in Hin.
Qed.

End Server.

(** C9: with [API_KEY] unset the gate lets nothing through: whatever the
    route, the header (absent or any text), the body and the store, the
    answer is the 401, the store is as before and nothing is sent. *)
Theorem unset_secret_fails_closed
  (Number_toString : spec_float -> string) (parseInt : string -> spec_float)
  (toLocaleString : option Z -> string) (axios : call -> option string)
  (r : api_route) (req : request) (st : store) :
  (forall next : M response,
     checkApiKey None req next st =
     (Normal (res_status_json 401 (error_body "Недействительный API-ключ")), st, []))
  /\ route Number_toString parseInt toLocaleString axios None r req st =
     (Normal (res_status_json 401 (error_body "Недействительный API-ключ")), st, []).
Proof.
  assert (x_api_key req = None \/ x_api_key req <> None) as Hbad
    by (destruct (x_api_key req); [by right|by left]).
  split; [intros next|unfold route]; by rewrite checkApiKey_rejects.
Qed.

(** ** The examples *)

(** The server of the examples. *)
Abbreviation example_route :=
  (route Example.Number_toString Example.parseInt Example.toLocaleString
     Example.axios Example.API_KEY).

Abbreviation example_app :=
  (app Example.Number_toString Example.parseInt Example.toLocaleString
     Example.axios Example.API_KEY).

Lemma example_valid_key (r : api_route) (fields : list (string * value)) :
  valid_key Example.API_KEY (Example.post r (Some "s3cret") fields).
Proof. exists "s3cret". by split_and!. Qed.

(** A wrong key and a missing key at [/api/registerDevice]. *)
Lemma bad_key_example :
  example_route registerDevice_route
    (Example.post registerDevice_route (Some "guess")
       [("deviceId", VStr "dev2"); ("botToken", VStr "T"); ("chatId", VStr "1")])
    Example.one_device =
  (Normal (res_status_json 401 (error_body "Недействительный API-ключ")),
   Example.one_device, []).
Proof.
  apply (bad_key_is_unauthorized Example.Number_toString Example.parseInt
           Example.toLocaleString Example.axios Example.API_KEY).
  right. discriminate.
Defined.

(** [processSms] for a device nobody registered. *)
Lemma unknown_device_example :
  example_route processSms_route (Example.sms "dev9" []) Example.one_device =
  (Normal (res_status_json 404 (error_body "Устройство не зарегистрировано")),
   Example.one_device, []).
Proof.
  apply (unknown_device_is_not_found Example.Number_toString Example.parseInt
           Example.toLocaleString Example.axios Example.API_KEY);
    [apply example_valid_key|reflexivity..|].
  intros device ->%list_elem_of_singleton. reflexivity.
Defined.

(** A registration without its [botToken]. *)
Lemma missing_field_example :
  example_route registerDevice_route
    (Example.post registerDevice_route (Some "s3cret")
       [("deviceId", VStr "dev2"); ("chatId", VStr "1")])
    Example.one_device =
  (Normal (res_status_json 400 (error_body
     "Отсутствуют обязательные параметры: deviceId, botToken, chatId")),
   Example.one_device, [])
  /\ status (missing_parameters registerDevice_route) = 400%Z.
Proof.
  apply (missing_field_is_bad_request Example.Number_toString Example.parseInt
           Example.toLocaleString Example.axios Example.API_KEY
           registerDevice_route _ _ "botToken");
    [apply example_valid_key| |reflexivity].
  apply list_elem_of_further, list_elem_of_here.
Defined.

(** The end-to-end scenario of the spec, with a timestamp: one call, to the
    token and the chat of [dev1]. *)
Lemma processSms_example :
  example_route processSms_route
    (Example.sms "dev1" [("timestamp", VNum (Example.parseInt "1600000000000"))])
    Example.one_device =
  (Normal (res_json (success_body "SMS успешно обработано и переслано в Telegram")),
   Example.one_device,
   [posted "https://api.telegram.org/botT/sendMessage" (VStr "123")
      (VStr (telegramMessage "+1555" "13.09.2020, 12:26:40" "hello"))]).
Proof.
  apply (processSms_relays_once Example.Number_toString Example.parseInt
           Example.toLocaleString Example.axios Example.API_KEY
           (Example.sms "dev1" [("timestamp", VNum (Example.parseInt "1600000000000"))])
           Example.one_device Example.dev1
           "https://api.telegram.org/botT/sendMessage" "+1555" "hello"
           "1600000000000");
    [apply example_valid_key|reflexivity|reflexivity|discriminate
    |reflexivity|discriminate|reflexivity|reflexivity|].
  intros _. vm_compute. reflexivity.
Defined.

(** The same request with the timestamp 0: the text carries the time of the
    clock, 14.11.2023, and not the time 0 that was supplied, 01.01.1970. *)
Lemma processSms_zero_timestamp_uses_clock :
  snd (example_route processSms_route
         (Example.sms "dev1" [("timestamp", VNum (S754_zero false))])
         Example.one_device) =
  [posted "https://api.telegram.org/botT/sendMessage" (VStr "123")
     (VStr (telegramMessage "+1555" "14.11.2023, 22:13:20" "hello"))]
  /\ Example.toLocaleString (new_Date (S754_zero false)) = "01.01.1970, 00:00:00"
  /\ Example.toLocaleString (Some Example.clock) = "14.11.2023, 22:13:20".
Proof. vm_compute. by split_and!. Qed.

(** A relay that the platform refuses. *)
Lemma relay_failure_example :
  example_route sendToTelegram_route
    (Example.post sendToTelegram_route (Some "s3cret")
       [("botToken", VStr "BAD"); ("chatId", VStr "123"); ("message", VStr "hi")])
    Example.one_device =
  (Normal (res_status_json 500 (error_body
     "Ошибка отправки в Telegram: Request failed with status code 404")),
   Example.one_device,
   [posted "https://api.telegram.org/botBAD/sendMessage" (VStr "123") (VStr "hi")]).
Proof.
  apply (relay_failure_is_500 Example.Number_toString Example.parseInt
           Example.toLocaleString Example.axios Example.API_KEY
           (Example.post sendToTelegram_route (Some "s3cret")
              [("botToken", VStr "BAD"); ("chatId", VStr "123"); ("message", VStr "hi")])
           Example.one_device "https://api.telegram.org/botBAD/sendMessage"
           "Request failed with status code 404");
    [apply example_valid_key|reflexivity..].
Defined.

(** Registering a new device, and registering [dev1] again. *)
Lemma registerDevice_example :
  example_route registerDevice_route (Example.register "dev2" "U" "456")
    Example.one_device =
  (Normal (res_json (VObj [("status", VStr "success");
                           ("message", VStr "Устройство успешно зарегистрировано");
                           ("deviceId", VStr "dev2")])),
   {| devices := [Example.dev1; Build_device (VStr "dev2") (VStr "U") (VStr "456")];
      hits := [] |}, [])
  /\ example_route registerDevice_route (Example.register "dev1" "U" "456")
       Example.one_device =
     (Normal (res_json (VObj [("status", VStr "success");
                              ("message", VStr "Устройство успешно обновлено");
                              ("deviceId", VStr "dev1")])),
      {| devices := [Build_device (VStr "dev1") (VStr "U") (VStr "456")];
         hits := [] |}, []).
Proof.
  split.
  - apply (registerDevice_succeeds Example.Number_toString Example.parseInt
             Example.toLocaleString Example.axios Example.API_KEY
             (Example.register "dev2" "U" "456") Example.one_device "dev2");
      [apply example_valid_key|reflexivity|discriminate|reflexivity..].
  - apply (registerDevice_succeeds Example.Number_toString Example.parseInt
             Example.toLocaleString Example.axios Example.API_KEY
             (Example.register "dev1" "U" "456") Example.one_device "dev1");
      [apply example_valid_key|reflexivity|discriminate|reflexivity..].
Defined.

(** [dev1] registered twice on top of an earlier registration of [dev0]:
    still two records, and [dev1] has the credentials of the second
    call. *)
Lemma registry_example :
  devices (snd (fst (example_route registerDevice_route
                       (Example.register "dev1" "T2" "456")
    (snd (fst (example_route registerDevice_route
                 (Example.register "dev1" "T" "123")
    (run Example.Number_toString Example.parseInt Example.toLocaleString
       Example.axios Example.API_KEY [Example.register "dev0" "Z" "0"] init))))))) =
  <[1%nat := Build_device (VStr "dev1") (VStr "T2") (VStr "456")]>
    [Build_device (VStr "dev0") (VStr "Z") (VStr "0"); Example.dev1].
Proof.
  destruct (registry_one_record_per_identifier Example.Number_toString
              Example.parseInt Example.toLocaleString Example.axios Example.API_KEY
              [Example.register "dev0" "Z" "0"]
              (Example.register "dev1" "T" "123")
              (Example.register "dev1" "T2" "456"))
    as (_ & _ & _ & (i & Hi & Hreplaced) & _);
    [apply example_valid_key|apply example_valid_key|reflexivity..|].
  rewrite Hreplaced. vm_compute in Hi. injection Hi as <-. reflexivity.
Defined.

(** The 101st request of an address within the window. *)
Lemma limiter_example :
  example_app (Example.sms "dev1" []) (Example.busy 100) =
  (Normal (res_status_json 429 limiter_message),
   {| devices := [Example.dev1];
      hits := ("203.0.113.7", Example.clock) :: hits (Example.busy 100) |}, []).
Proof.
  apply (limiter_caps_requests Example.Number_toString Example.parseInt
           Example.toLocaleString Example.axios Example.API_KEY
           (Example.sms "dev1" []) (Example.busy 100)); [reflexivity|].
  vm_compute. discriminate.
Defined.

(** The 100th request of the same address goes on to its route. *)
Lemma limiter_admits_example :
  fst (fst (example_app (Example.sms "dev1" []) (Example.busy 99))) =
  Normal (res_json (success_body "SMS успешно обработано и переслано в Telegram")).
Proof. vm_compute. reflexivity. Qed.

(** What [processSms] sends for [dev1] goes to the stored token and chat. *)
Lemma stored_credentials_example :
  exists device,
    device ∈ [Example.dev1]
    /\ truthy (botToken device) = true /\ truthy (chatId device) = true
    /\ botToken device <> VStr "" /\ chatId device <> VStr ""
    /\ telegramApi Example.Number_toString (botToken device) =
       Some "https://api.telegram.org/botT/sendMessage"
    /\ VStr "123" = chatId device.
Proof.
  apply (proj2 (proj2 (stored_credentials_are_truthy Example.Number_toString
           Example.parseInt Example.toLocaleString Example.axios Example.API_KEY
           [Example.register "dev1" "T" "123"]))
         (Example.sms "dev1" [])
         (posted "https://api.telegram.org/botT/sendMessage" (VStr "123")
            (VStr (telegramMessage "+1555" "14.11.2023, 22:13:20" "hello")))).
  vm_compute. apply list_elem_of_here.
Defined.

(** The array [["a"]] registered twice: two records. *)
Lemma structured_identifier_example :
  devices (snd (fst (example_route registerDevice_route
    (Example.post registerDevice_route (Some "s3cret")
       [("deviceId", VArr [VStr "a"]); ("botToken", VStr "T"); ("chatId", VStr "1")])
    {| devices := [Build_device (VArr [VStr "a"]) (VStr "T") (VStr "1")];
       hits := [] |}))) =
  [Build_device (VArr [VStr "a"]) (VStr "T") (VStr "1");
   Build_device (VArr [VStr "a"]) (VStr "T") (VStr "1")].
Proof.
  apply (structured_identifier_is_appended Example.Number_toString Example.parseInt
           Example.toLocaleString Example.axios Example.API_KEY
           (Example.post registerDevice_route (Some "s3cret")
              [("deviceId", VArr [VStr "a"]); ("botToken", VStr "T");
               ("chatId", VStr "1")])
           {| devices := [Build_device (VArr [VStr "a"]) (VStr "T") (VStr "1")];
              hits := [] |});
    [apply example_valid_key|left; by eexists|reflexivity..].
Defined.

(** The body [{"deviceId": {"toString": 1}, "botToken": "T", "chatId": "1"}]. *)
Lemma identifier_without_text_example :
  example_route registerDevice_route
    (Example.post registerDevice_route (Some "s3cret")
       [("deviceId", VObj [("toString", VNum (Example.parseInt "1"))]);
        ("botToken", VStr "T"); ("chatId", VStr "1")])
    init =
  (Normal (res_status_json 500
             (error_body "Cannot convert object to primitive value")),
   {| devices := [Build_device (VObj [("toString", VNum (Example.parseInt "1"))])
                    (VStr "T") (VStr "1")];
      hits := [] |}, []).
Proof.
  apply (identifier_without_text_is_stored Example.Number_toString Example.parseInt
           Example.toLocaleString Example.axios Example.API_KEY
           (Example.post registerDevice_route (Some "s3cret")
              [("deviceId", VObj [("toString", VNum (Example.parseInt "1"))]);
               ("botToken", VStr "T"); ("chatId", VStr "1")])
           init);
    [apply example_valid_key|reflexivity..].
Defined.

(** An empty header against a secret configured empty. *)
Lemma invalid_key_example :
  route Example.Number_toString Example.parseInt Example.toLocaleString
    Example.axios (Some "") processSms_route
    (Example.post processSms_route (Some "")
       [("deviceId", VStr "dev1"); ("sender", VStr "+1555"); ("message", VStr "hello")])
    Example.one_device =
  (Normal (res_status_json 401 (error_body "Недействительный API-ключ")),
   Example.one_device, []).
Proof.
  apply (invalid_key_is_unauthorized Example.Number_toString Example.parseInt
           Example.toLocaleString Example.axios (Some "")).
  intros (k & Hk & Hne & _). simpl in Hk. congruence.
Defined.

(** Registering [dev2] leaves [dev1] as it was. *)
Lemma registry_never_forgets_example :
  find (same_id (VStr "dev1"))
    (devices (serve Example.Number_toString Example.parseInt Example.toLocaleString
                Example.axios Example.API_KEY Example.one_device
                (Example.register "dev2" "U" "456"))) = Some Example.dev1.
Proof.
  apply (registry_never_forgets Example.Number_toString Example.parseInt
           Example.toLocaleString Example.axios Example.API_KEY
           (Example.register "dev2" "U" "456") Example.one_device
           (VStr "dev1") Example.dev1); reflexivity.
Defined.

(** [dev1] registered again with other credentials, then an SMS for it. *)
Lemma registered_device_example :
  snd (example_route processSms_route (Example.sms "dev1" [])
         (snd (fst (example_route registerDevice_route
                      (Example.register "dev1" "T9" "999") Example.one_device)))) =
  [posted "https://api.telegram.org/botT9/sendMessage" (VStr "999")
     (VStr (telegramMessage "+1555" "14.11.2023, 22:13:20" "hello"))].
Proof.
  apply (registered_device_is_relayed_to Example.Number_toString Example.parseInt
           Example.toLocaleString Example.axios Example.API_KEY
           (Example.register "dev1" "T9" "999") (Example.sms "dev1" [])
           Example.one_device "dev1" "T9" "+1555" "hello" "14.11.2023, 22:13:20");
    try apply example_valid_key; try discriminate; try reflexivity.
Defined.

(** A relay that the platform accepts. *)
Lemma relay_success_example :
  example_route sendToTelegram_route
    (Example.post sendToTelegram_route (Some "s3cret")
       [("botToken", VStr "T"); ("chatId", VStr "123"); ("message", VStr "<b>hi</b>")])
    Example.one_device =
  (Normal (res_status_json 200 (success_body "Сообщение успешно отправлено")),
   Example.one_device,
   [{| url := "https://api.telegram.org/botT/sendMessage"; chat_id := VStr "123";
       text := VStr "<b>hi</b>"; parse_mode := "HTML" |}]).
Proof.
  apply (relay_success_is_200 Example.Number_toString Example.parseInt
           Example.toLocaleString Example.axios Example.API_KEY
           (Example.post sendToTelegram_route (Some "s3cret")
              [("botToken", VStr "T"); ("chatId", VStr "123");
               ("message", VStr "<b>hi</b>")])
           Example.one_device "https://api.telegram.org/botT/sendMessage");
    [apply example_valid_key|reflexivity..].
Defined.

(** The body [{"botToken": {"toString": 1}, "chatId": "123", "message": "hi"}]. *)
Lemma token_without_text_example :
  example_route sendToTelegram_route
    (Example.post sendToTelegram_route (Some "s3cret")
       [("botToken", VObj [("toString", VNum (Example.parseInt "1"))]);
        ("chatId", VStr "123"); ("message", VStr "hi")])
    Example.one_device =
  (Normal (res_status_json 500 (error_body
     "Ошибка отправки в Telegram: Cannot convert object to primitive value")),
   Example.one_device, []).
Proof.
  apply (token_without_text_is_500 Example.Number_toString Example.parseInt
           Example.toLocaleString Example.axios Example.API_KEY
           (Example.post sendToTelegram_route (Some "s3cret")
              [("botToken", VObj [("toString", VNum (Example.parseInt "1"))]);
               ("chatId", VStr "123"); ("message", VStr "hi")])
           Example.one_device);
    [apply example_valid_key|reflexivity..].
Defined.

(** An SMS for [dev1] whose sender is [{"toString": 1}]. *)
Lemma field_without_text_example :
  example_route processSms_route
    (Example.post processSms_route (Some "s3cret")
       [("deviceId", VStr "dev1");
        ("sender", VObj [("toString", VNum (Example.parseInt "1"))]);
        ("message", VStr "hello")])
    Example.one_device =
  (Normal (res_status_json 500 (error_body "Cannot convert object to primitive value")),
   Example.one_device, []).
Proof.
  apply (field_without_text_is_500 Example.Number_toString Example.parseInt
           Example.toLocaleString Example.axios Example.API_KEY
           (Example.post processSms_route (Some "s3cret")
              [("deviceId", VStr "dev1");
               ("sender", VObj [("toString", VNum (Example.parseInt "1"))]);
               ("message", VStr "hello")])
           Example.one_device Example.dev1);
    [apply example_valid_key|reflexivity..|].
  right. left. reflexivity.
Defined.

(** [dev1] registered on the empty registry, then once more. *)
Lemma registering_again_example :
  example_route registerDevice_route (Example.register "dev1" "T" "123")
    Example.one_device =
  (Normal (res_json (VObj [("status", VStr "success");
                           ("message", VStr "Устройство успешно обновлено");
                           ("deviceId", VStr "dev1")])),
   Example.one_device, []).
Proof.
  apply (registering_again_changes_nothing Example.Number_toString Example.parseInt
           Example.toLocaleString Example.axios Example.API_KEY
           (Example.register "dev1" "T" "123") init);
    [apply example_valid_key|reflexivity..].
Defined.

(** The record of [dev1] after a refused and an accepted registration. *)
Lemma every_record_example :
  exists req,
    req ∈ [Example.post registerDevice_route (Some "guess")
             [("deviceId", VStr "dev7"); ("botToken", VStr "X"); ("chatId", VStr "7")];
           Example.register "dev1" "T" "123"]
    /\ to req = Api registerDevice_route /\ valid_key Example.API_KEY req
    /\ get (body req) "deviceId" = VStr "dev1"
    /\ get (body req) "botToken" = VStr "T"
    /\ get (body req) "chatId" = VStr "123".
Proof.
  apply (every_record_was_registered Example.Number_toString Example.parseInt
           Example.toLocaleString Example.axios Example.API_KEY
           [Example.post registerDevice_route (Some "guess")
              [("deviceId", VStr "dev7"); ("botToken", VStr "X"); ("chatId", VStr "7")];
            Example.register "dev1" "T" "123"]
           Example.dev1).
  vm_compute. apply list_elem_of_here.
Defined.
